(** * A shallow embedding of [application/src/main.cpp]

    The program opens a window, builds the GPU resources of one triangle,
    renders it until the window is closed and tears everything down.  All of
    its behaviour is a sequence of calls into three foreign libraries (GLFW,
    GLEW, OpenGL) and of writes to the two standard streams.  The embedding
    therefore threads an explicit [World] through every call: the world
    records the calls made so far together with what they returned, the
    OpenGL error flags recorded and not yet fetched, and a few counters.
    What the libraries answer is fixed by a [Driver], over which every
    statement is quantified; the compile-time switches are fixed by a
    [Build].

    Two things are taken from the libraries' documentation rather than from
    the program.  The first is the set of values of the header constants.
    The second is the error state of OpenGL: finitely many recorded flags,
    of which [glGetError] returns and clears one per call, answering
    [GL_NO_ERROR] when none is left.  The termination of the fetch loop of
    [PrintOpenGLErrors] rests on it. *)

From Stdlib Require Import ZArith List String Ascii Bool Lia QArith.
From Stdlib Require Import DecimalString HexadecimalString.
From Stdlib Require Import Floats.SpecFloat.
From Equations Require Import Equations.
Import ListNotations.

Local Open Scope string_scope.
Local Open Scope Z_scope.

(** ** Machine types *)

(** [GLenum] and [GLuint] are 32-bit unsigned, [GLint] and [int] 32-bit
    signed; a [GLFWwindow*] is an address, with [0] for [nullptr]. *)
Definition to_GLuint (z : Z) : Z := z mod 2 ^ 32.
Definition to_GLint (z : Z) : Z := (z + 2 ^ 31) mod 2 ^ 32 - 2 ^ 31.

(** A [GLfloat] is an IEEE binary32 number. *)
Definition GLfloat := spec_float.


(** ** Constants of the foreign headers

    The values are those of the OpenGL registry ([GL/glew.h]) and of
    [GLFW/glfw3.h]. *)
Definition GL_NO_ERROR : Z := 0.
Definition GL_INVALID_ENUM : Z := 0x0500.
Definition GL_INVALID_VALUE : Z := 0x0501.
Definition GL_INVALID_OPERATION : Z := 0x0502.
Definition GL_OUT_OF_MEMORY : Z := 0x0505.
Definition GL_INVALID_FRAMEBUFFER_OPERATION : Z := 0x0506.

Definition GL_FALSE : Z := 0.
Definition GL_TRUE : Z := 1.
Definition GL_TRIANGLES : Z := 0x0004.
Definition GL_UNSIGNED_INT : Z := 0x1405.
Definition GL_FLOAT : Z := 0x1406.
Definition GL_COLOR_BUFFER_BIT : Z := 0x00004000.
Definition GL_ARRAY_BUFFER : Z := 0x8892.
Definition GL_ELEMENT_ARRAY_BUFFER : Z := 0x8893.
Definition GL_STATIC_DRAW : Z := 0x88E4.
Definition GL_FRAGMENT_SHADER : Z := 0x8B30.
Definition GL_VERTEX_SHADER : Z := 0x8B31.
Definition GL_COMPILE_STATUS : Z := 0x8B81.
Definition GL_INFO_LOG_LENGTH : Z := 0x8B84.

Definition GLEW_OK : Z := 0.

Definition GLFW_CONTEXT_VERSION_MAJOR : Z := 0x00022002.
Definition GLFW_CONTEXT_VERSION_MINOR : Z := 0x00022003.
Definition GLFW_OPENGL_FORWARD_COMPAT : Z := 0x00022006.
Definition GLFW_OPENGL_PROFILE : Z := 0x00022008.
Definition GLFW_OPENGL_CORE_PROFILE : Z := 0x00032001.

(** ** [GlErrorToString] (lines 7-17) *)

Definition GlErrorToString (e : Z) : string :=
  if e =? GL_NO_ERROR then "GL_NO_ERROR"
  else if e =? GL_INVALID_ENUM then "GL_INVALID_ENUM"
  else if e =? GL_INVALID_VALUE then "GL_INVALID_VALUE"
  else if e =? GL_INVALID_OPERATION then "GL_INVALID_OPERATION"
  else if e =? GL_INVALID_FRAMEBUFFER_OPERATION
       then "GL_INVALID_FRAMEBUFFER_OPERATION"
  else if e =? GL_OUT_OF_MEMORY then "GL_OUT_OF_MEMORY"
  else "Unknown GL error".

(** ** Stream formatting *)

(** [os << n] for an [int], in the stream's default decimal base. *)
Definition dec_of_int (n : Z) : string :=
  DecimalString.NilZero.string_of_int (Z.to_int n).

(** [os << std::hex << e] for an [unsigned int]: lower-case digits, no
    prefix, no padding. *)
Definition hex_of_uint (e : Z) : string :=
  HexadecimalString.NilZero.string_of_uint (N.to_hex_uint (Z.to_N e)).

Definition newline : string := String (ascii_of_nat 10) "".
Definition dquote : string := String (ascii_of_nat 34) "".
Definition nul : ascii := ascii_of_nat 0.

Fixpoint nuls (n : nat) : string :=
  match n with
  | O => ""
  | S n' => String nul (nuls n')
  end.

(** ** Events and worlds *)

Inductive Stream := Cerr | Cout.

(** The client memory handed to [glBufferData]. *)
Inductive ClientData :=
| FloatArray (a : list GLfloat)
| UIntArray (a : list Z).

(** One constructor per foreign entry point the program uses, carrying the
    arguments of the call and, last, what the call returned or stored
    through its out pointer. *)
Inductive Event :=
| E_glfwInit (ret : Z)
| E_glfwWindowHint (hint value : Z)
| E_glfwCreateWindow (width height : Z) (title : string)
                     (monitor share : Z) (ret : Z)
| E_glfwMakeContextCurrent (window : Z)
| E_glfwWindowShouldClose (window : Z) (ret : Z)
| E_glfwSwapBuffers (window : Z)
| E_glfwPollEvents
| E_glfwTerminate
| E_glewExperimental (value : Z)
| E_glewInit (ret : Z)
| E_glewGetErrorString (err : Z) (ret : string)
| E_glGetError (ret : Z)
| E_glGenVertexArrays (n : Z) (out : Z)
| E_glBindVertexArray (array : Z)
| E_glGenBuffers (n : Z) (out : Z)
| E_glBindBuffer (target buffer : Z)
| E_glBufferData (target size : Z) (data : ClientData) (usage : Z)
| E_glCreateShader (type : Z) (ret : Z)
| E_glShaderSource (shader count : Z) (source : string) (length : Z)
| E_glCompileShader (shader : Z)
| E_glGetShaderiv (shader pname : Z) (out : option Z)
| E_glGetShaderInfoLog (shader bufSize : Z) (out : string)
| E_glCreateProgram (ret : Z)
| E_glAttachShader (program shader : Z)
| E_glBindFragDataLocation (program color : Z) (name : string)
| E_glLinkProgram (program : Z)
| E_glUseProgram (program : Z)
| E_glGetAttribLocation (program : Z) (name : string) (ret : Z)
| E_glEnableVertexAttribArray (index : Z)
| E_glVertexAttribPointer (index size type normalized stride pointer : Z)
| E_glClear (mask : Z)
| E_glDrawElements (mode count type indices : Z)
| E_glDeleteProgram (program : Z)
| E_glDeleteShader (shader : Z)
| E_glDeleteBuffers (n buffer : Z)
| E_glDeleteVertexArrays (n array : Z)
| E_write (s : Stream) (text : string).

(** What the foreign libraries answer in one run of the program.  Entry
    points the program calls once have one answer; [glGenBuffers] and
    [glfwWindowShouldClose] are asked repeatedly with the same arguments and
    answer by occurrence; the shader queries answer by their arguments, and
    answer [None] when they leave the pointee untouched, as OpenGL does when
    a query itself is in error.  [gl_faults n] lists the error codes that the
    [n]-th foreign call (not counting [glGetError]) records. *)
Record Driver := {
  glfwInit_ret : Z;
  glfwCreateWindow_ret : Z;
  glfwWindowShouldClose_ret : nat -> Z;
  glewInit_ret : Z;
  glewGetErrorString_ret : Z -> string;
  glGenVertexArrays_out : Z;
  glGenBuffers_out : nat -> Z;
  glCreateShader_ret : Z -> Z;
  glGetShaderiv_out : Z -> Z -> option Z;
  glGetShaderInfoLog_out : Z -> string;
  glCreateProgram_ret : Z;
  glGetAttribLocation_ret : Z -> string -> Z;
  gl_faults : nat -> list Z
}.

(** The compile-time configuration: whether [_DEBUG] is defined, the value
    of [__APPLE__], and the expansion of [__FILE__]. *)
Record Build := {
  _DEBUG : bool;
  __APPLE__ : bool;
  __FILE__ : string
}.

Record World := mkWorld {
  trace : list Event;      (* everything done so far, oldest first *)
  gl_errors : list Z;      (* error flags recorded and not yet fetched *)
  tick : nat;              (* foreign calls made, glGetError excepted *)
  polls : nat;             (* calls of glfwWindowShouldClose *)
  buffers : nat            (* calls of glGenBuffers *)
}.

Definition boot : World := mkWorld [] [] 0 0 0.

(** ** The state monad *)

Definition M (A : Type) : Type := World -> A * World.

Definition ret {A} (a : A) : M A := fun w => (a, w).

Definition bind {A B} (m : M A) (k : A -> M B) : M B :=
  fun w => let (a, w') := m w in k a w'.

Declare Scope prog_scope.
Delimit Scope prog_scope with prog.
Notation "x <- m ;; k" := (bind m (fun x => k))
  (at level 100, m at next level, right associativity) : prog_scope.
Notation "m ;; k" := (bind m (fun _ => k))
  (at level 100, right associativity) : prog_scope.
Local Open Scope prog_scope.

Definition inspect {A} (a : A) : {b : A | a = b} := exist _ a eq_refl.

(** The text of the stream [s] after the events [t]. *)
Fixpoint stream_text (s : Stream) (t : list Event) : string :=
  match t with
  | [] => ""
  | E_write s' text :: t' =>
      match s, s' with
      | Cerr, Cerr | Cout, Cout => text ++ stream_text s t'
      | _, _ => stream_text s t'
      end
  | _ :: t' => stream_text s t'
  end.

(** An error-report line always starts with this text. *)
Definition report_prefix : string := "OpenGL Error in ".

Fixpoint starts_with (p s : string) : bool :=
  match p, s with
  | EmptyString, _ => true
  | String a p', String b s' => Ascii.eqb a b && starts_with p' s'
  | String _ _, EmptyString => false
  end.

(** The events of the diagnostic layer: fetching an error flag and writing
    its report. *)
Definition is_diagnostic (e : Event) : bool :=
  match e with
  | E_glGetError _ => true
  | E_write Cerr text => starts_with report_prefix text
  | _ => false
  end.

(** The trace without the diagnostic layer. *)
Definition program_events (t : list Event) : list Event :=
  filter (fun e => negb (is_diagnostic e)) t.

(** ** The embedded data of [main] (lines 73-86) *)

Definition VertexShaderSource : string :=
  newline ++
  "        #version 150" ++ newline ++
  "        in vec2 position;" ++ newline ++
  "        void main() { gl_Position = vec4(position, 0.0, 1.0); }" ++ newline ++
  "    ".

Definition FragmentShaderSource : string :=
  newline ++
  "        #version 150" ++ newline ++
  "        out vec4 outColor;" ++ newline ++
  "        void main() { outColor = vec4(1.0, 1.0, 1.0, 1.0); }" ++ newline ++
  "    ".

(** The literals [0.0f], [0.5f] and [-0.5f] as binary32 numbers. *)
Definition f_0_0 : GLfloat := S754_zero false.
Definition f_0_5 : GLfloat := S754_finite false 8388608 (-24).
Definition f_neg_0_5 : GLfloat := S754_finite true 8388608 (-24).

Definition Vertices : list GLfloat :=
  [f_0_0; f_0_5; f_0_5; f_neg_0_5; f_neg_0_5; f_neg_0_5].

Definition Elements : list Z := [0; 1; 2].

(** [sizeof] of an array of 4-byte elements. *)
Definition sizeof {A} (a : list A) : Z := 4 * Z.of_nat (List.length a).

(** The handles [main] keeps in local variables until teardown. *)
Record Handles := mkHandles {
  VAO : Z; VBO : Z; EBO : Z; vs : Z; fs : Z; prog : Z
}.

Section Program.

Variable drv : Driver.
Variable bld : Build.

(** *** Foreign calls *)

(** Append an event that is not a foreign call. *)
Definition emit (e : Event) : M unit := fun w =>
  (tt, mkWorld (trace w ++ [e]) (gl_errors w) (tick w) (polls w) (buffers w)).

(** A foreign call: it is recorded, and the driver may record errors. *)
Definition foreign (e : Event) : M unit := fun w =>
  (tt, mkWorld (trace w ++ [e]) (gl_errors w ++ gl_faults drv (tick w))
               (S (tick w)) (polls w) (buffers w)).

Definition write (s : Stream) (text : string) : M unit :=
  emit (E_write s text).

(** [glGetError] returns the oldest recorded flag and clears it, or
    [GL_NO_ERROR] when none is recorded. *)
Definition glGetError : M Z := fun w =>
  match gl_errors w with
  | [] => (GL_NO_ERROR,
           mkWorld (trace w ++ [E_glGetError GL_NO_ERROR]) []
                   (tick w) (polls w) (buffers w))
  | e :: q => (e, mkWorld (trace w ++ [E_glGetError e]) q
                          (tick w) (polls w) (buffers w))
  end.


(** *** The diagnostic layer *)

(** One report of [PrintOpenGLErrors] (lines 22-24). *)
Definition report_line (Function File : string) (Line err : Z) : string :=
  "OpenGL Error in " ++ File ++ " at line " ++ dec_of_int Line
    ++ " calling " ++ Function ++ ": " ++ GlErrorToString err
    ++ " (0x" ++ hex_of_uint err ++ ")" ++ newline.

(** [PrintOpenGLErrors] (lines 19-26).  The loop fetches until
    [glGetError] answers [GL_NO_ERROR]; every fetch of another code
    shortens the recorded flags, which is the loop's variant. *)
Equations? PrintOpenGLErrors (Function File : string) (Line : Z)
    (w : World) : unit * World by wf (List.length (gl_errors w)) lt :=
  PrintOpenGLErrors Function File Line w with inspect (glGetError w) := {
    | exist _ (err, w1) Hfetch with inspect (negb (err =? GL_NO_ERROR)) := {
      | exist _ true Hloop :=
          PrintOpenGLErrors Function File Line
            (snd (write Cerr (report_line Function File Line err) w1))
      | exist _ false _ := (tt, w1) } }.
Proof.
  unfold glGetError in Hfetch.
  destruct (gl_errors w) as [|e q]; inversion Hfetch; subst; simpl in *.
  - discriminate.
  - lia.
Qed.

(** The two checked-call macros (lines 28-34).  [x_text] is the
    stringified argument [#x] and [line] the value of [__LINE__] at the
    place of use. *)
Definition CheckedGLCall {A} (x_text : string) (line : Z) (x : M A) : M A :=
  if _DEBUG bld then
    PrintOpenGLErrors (">>BEFORE<< " ++ x_text) (__FILE__ bld) line ;;
    r <- x ;;
    PrintOpenGLErrors x_text (__FILE__ bld) line ;;
    ret r
  else x.

Definition CheckedGLResult {A} (x_text : string) (line : Z) (x : M A) : M A :=
  if _DEBUG bld then
    r <- x ;;
    PrintOpenGLErrors x_text (__FILE__ bld) line ;;
    ret r
  else x.

(** *** GLFW and GLEW *)

Definition glfwInit : M Z :=
  foreign (E_glfwInit (glfwInit_ret drv)) ;; ret (glfwInit_ret drv).

Definition glfwWindowHint (hint value : Z) : M unit :=
  foreign (E_glfwWindowHint hint value).

Definition glfwCreateWindow (width height : Z) (title : string)
    (monitor share : Z) : M Z :=
  foreign (E_glfwCreateWindow width height title monitor share
                              (glfwCreateWindow_ret drv)) ;;
  ret (glfwCreateWindow_ret drv).

Definition glfwMakeContextCurrent (window : Z) : M unit :=
  foreign (E_glfwMakeContextCurrent window).

Definition glfwWindowShouldClose (window : Z) : M Z := fun w =>
  let r := glfwWindowShouldClose_ret drv (polls w) in
  (r, mkWorld (trace w ++ [E_glfwWindowShouldClose window r])
              (gl_errors w ++ gl_faults drv (tick w))
              (S (tick w)) (S (polls w)) (buffers w)).

Definition glfwSwapBuffers (window : Z) : M unit :=
  foreign (E_glfwSwapBuffers window).

Definition glfwPollEvents : M unit := foreign E_glfwPollEvents.

Definition glfwTerminate : M unit := foreign E_glfwTerminate.

(** The assignment [glewExperimental = GL_TRUE] (line 65). *)
Definition set_glewExperimental (value : Z) : M unit :=
  emit (E_glewExperimental value).

Definition glewInit : M Z :=
  foreign (E_glewInit (glewInit_ret drv)) ;; ret (glewInit_ret drv).

Definition glewGetErrorString (err : Z) : M string :=
  foreign (E_glewGetErrorString err (glewGetErrorString_ret drv err)) ;;
  ret (glewGetErrorString_ret drv err).

(** *** OpenGL *)

Definition glGenVertexArrays (n : Z) : M Z :=
  foreign (E_glGenVertexArrays n (glGenVertexArrays_out drv)) ;;
  ret (glGenVertexArrays_out drv).

Definition glBindVertexArray (array : Z) : M unit :=
  foreign (E_glBindVertexArray array).

Definition glGenBuffers (n : Z) : M Z := fun w =>
  let b := glGenBuffers_out drv (buffers w) in
  (b, mkWorld (trace w ++ [E_glGenBuffers n b])
              (gl_errors w ++ gl_faults drv (tick w))
              (S (tick w)) (polls w) (S (buffers w))).

Definition glBindBuffer (target buffer : Z) : M unit :=
  foreign (E_glBindBuffer target buffer).

Definition glBufferData (target size : Z) (data : ClientData) (usage : Z)
    : M unit :=
  foreign (E_glBufferData target size data usage).

Definition glCreateShader (type : Z) : M Z :=
  foreign (E_glCreateShader type (glCreateShader_ret drv type)) ;;
  ret (glCreateShader_ret drv type).

Definition glShaderSource (shader count : Z) (source : string) (length : Z)
    : M unit :=
  foreign (E_glShaderSource shader count source length).

Definition glCompileShader (shader : Z) : M unit :=
  foreign (E_glCompileShader shader).

(** [glGetShaderiv(shader, pname, &v)]: [old] is what [v] held before the
    call, the result is what it holds after. *)
Definition glGetShaderiv (shader pname old : Z) : M Z :=
  let out := glGetShaderiv_out drv shader pname in
  foreign (E_glGetShaderiv shader pname out) ;;
  ret (match out with Some v => v | None => old end).

(** [data] stored at the start of the character buffer [buf]. *)
Definition store_chars (buf data : string) : string :=
  data ++ substring (String.length data)
                    (String.length buf - String.length data) buf.

(** [glGetShaderInfoLog(shader, bufSize, &written, buf)] copies at most
    [bufSize - 1] characters of the log and a terminating NUL into [buf];
    the result is the buffer afterwards. *)
Definition glGetShaderInfoLog (shader bufSize : Z) (buf : string)
    : M string :=
  let copied := substring 0 (Z.to_nat bufSize - 1)
                          (glGetShaderInfoLog_out drv shader) in
  foreign (E_glGetShaderInfoLog shader bufSize copied) ;;
  ret (store_chars buf (copied ++ String nul "")).

Definition glCreateProgram : M Z :=
  foreign (E_glCreateProgram (glCreateProgram_ret drv)) ;;
  ret (glCreateProgram_ret drv).

Definition glAttachShader (program shader : Z) : M unit :=
  foreign (E_glAttachShader program shader).

Definition glBindFragDataLocation (program color : Z) (name : string)
    : M unit :=
  foreign (E_glBindFragDataLocation program color name).

Definition glLinkProgram (program : Z) : M unit :=
  foreign (E_glLinkProgram program).

Definition glUseProgram (program : Z) : M unit :=
  foreign (E_glUseProgram program).

Definition glGetAttribLocation (program : Z) (name : string) : M Z :=
  foreign (E_glGetAttribLocation program name
                                 (glGetAttribLocation_ret drv program name)) ;;
  ret (glGetAttribLocation_ret drv program name).

Definition glEnableVertexAttribArray (index : Z) : M unit :=
  foreign (E_glEnableVertexAttribArray index).

Definition glVertexAttribPointer
    (index size type normalized stride pointer : Z) : M unit :=
  foreign (E_glVertexAttribPointer index size type normalized stride pointer).

Definition glClear (mask : Z) : M unit := foreign (E_glClear mask).

Definition glDrawElements (mode count type indices : Z) : M unit :=
  foreign (E_glDrawElements mode count type indices).

Definition glDeleteProgram (program : Z) : M unit :=
  foreign (E_glDeleteProgram program).

Definition glDeleteShader (shader : Z) : M unit :=
  foreign (E_glDeleteShader shader).

Definition glDeleteBuffers (n buffer : Z) : M unit :=
  foreign (E_glDeleteBuffers n buffer).

Definition glDeleteVertexArrays (n array : Z) : M unit :=
  foreign (E_glDeleteVertexArrays n array).

(** *** [PrintShaderInfoLog] (lines 36-46) *)

Definition PrintShaderInfoLog (Shader : Z) : M unit :=
  len <- glGetShaderiv (to_GLuint Shader) GL_INFO_LOG_LENGTH 0 ;;
  if len >? 1 then
    log <- glGetShaderInfoLog (to_GLuint Shader) len (nuls (Z.to_nat len)) ;;
    write Cout ("Shader Info Log:" ++ newline ++ log ++ newline)
  else ret tt.


(** *** [main] (lines 48-141) *)

(** Lines 88-124: the vertex array, the two buffers, the two shaders, the
    program and the attribute layout. *)
Definition build_resources : M Handles :=
  VAO <- CheckedGLCall "glGenVertexArrays(1, &VAO)" 88
           (glGenVertexArrays 1) ;;
  CheckedGLCall "glBindVertexArray(VAO)" 89 (glBindVertexArray VAO) ;;

  VBO <- CheckedGLCall "glGenBuffers(1, &VBO)" 91 (glGenBuffers 1) ;;
  CheckedGLCall "glBindBuffer(GL_ARRAY_BUFFER, VBO)" 92
    (glBindBuffer GL_ARRAY_BUFFER VBO) ;;
  CheckedGLCall
    "glBufferData(GL_ARRAY_BUFFER, sizeof(Vertices), Vertices, GL_STATIC_DRAW)"
    93
    (glBufferData GL_ARRAY_BUFFER (sizeof Vertices) (FloatArray Vertices)
                  GL_STATIC_DRAW) ;;
  CheckedGLCall "glBindBuffer(GL_ARRAY_BUFFER, 0)" 94
    (glBindBuffer GL_ARRAY_BUFFER 0) ;;

  EBO <- CheckedGLCall "glGenBuffers(1, &EBO)" 96 (glGenBuffers 1) ;;
  CheckedGLCall "glBindBuffer(GL_ELEMENT_ARRAY_BUFFER, EBO)" 97
    (glBindBuffer GL_ELEMENT_ARRAY_BUFFER EBO) ;;
  CheckedGLCall
    "glBufferData(GL_ELEMENT_ARRAY_BUFFER, sizeof(Elements), Elements, GL_STATIC_DRAW)"
    98
    (glBufferData GL_ELEMENT_ARRAY_BUFFER (sizeof Elements)
                  (UIntArray Elements) GL_STATIC_DRAW) ;;

  let compiled := 0 in
  vs <- CheckedGLResult "glCreateShader(GL_VERTEX_SHADER)" 101
          (glCreateShader GL_VERTEX_SHADER) ;;
  CheckedGLCall "glShaderSource(vs, 1, &VertexShaderSource, nullptr)" 102
    (glShaderSource vs 1 VertexShaderSource 0) ;;
  CheckedGLCall "glCompileShader(vs)" 103 (glCompileShader vs) ;;
  compiled <- CheckedGLCall "glGetShaderiv(vs, GL_COMPILE_STATUS, &compiled)"
                104 (glGetShaderiv vs GL_COMPILE_STATUS compiled) ;;
  (if compiled =? 0 then
     write Cerr ("Vertex shader failed" ++ newline) ;;
     PrintShaderInfoLog (to_GLint vs)
   else ret tt) ;;

  fs <- CheckedGLResult "glCreateShader(GL_FRAGMENT_SHADER)" 107
          (glCreateShader GL_FRAGMENT_SHADER) ;;
  CheckedGLCall "glShaderSource(fs, 1, &FragmentShaderSource, nullptr)" 108
    (glShaderSource fs 1 FragmentShaderSource 0) ;;
  CheckedGLCall "glCompileShader(fs)" 109 (glCompileShader fs) ;;
  compiled <- CheckedGLCall "glGetShaderiv(fs, GL_COMPILE_STATUS, &compiled)"
                110 (glGetShaderiv fs GL_COMPILE_STATUS compiled) ;;
  (if compiled =? 0 then
     write Cerr ("Fragment shader failed" ++ newline) ;;
     PrintShaderInfoLog (to_GLint fs)
   else ret tt) ;;

  prog <- CheckedGLResult "glCreateProgram()" 113 glCreateProgram ;;
  CheckedGLCall "glAttachShader(prog, vs)" 114 (glAttachShader prog vs) ;;
  CheckedGLCall "glAttachShader(prog, fs)" 115 (glAttachShader prog fs) ;;
  CheckedGLCall
    ("glBindFragDataLocation(prog, 0, " ++ dquote ++ "outColor" ++ dquote
       ++ ")")
    116 (glBindFragDataLocation prog 0 "outColor") ;;
  CheckedGLCall "glLinkProgram(prog)" 117 (glLinkProgram prog) ;;
  CheckedGLCall "glUseProgram(prog)" 118 (glUseProgram prog) ;;

  posLoc <- CheckedGLResult
              ("glGetAttribLocation(prog, " ++ dquote ++ "position" ++ dquote
                 ++ ")")
              120 (glGetAttribLocation prog "position") ;;
  CheckedGLCall "glEnableVertexAttribArray(posLoc)" 121
    (glEnableVertexAttribArray (to_GLuint posLoc)) ;;
  CheckedGLCall "glBindBuffer(GL_ARRAY_BUFFER, VBO)" 122
    (glBindBuffer GL_ARRAY_BUFFER VBO) ;;
  CheckedGLCall
    "glVertexAttribPointer(posLoc, 2, GL_FLOAT, GL_FALSE, 0, (void*)0)" 123
    (glVertexAttribPointer (to_GLuint posLoc) 2 GL_FLOAT GL_FALSE 0 0) ;;
  CheckedGLCall "glBindBuffer(GL_ARRAY_BUFFER, 0)" 124
    (glBindBuffer GL_ARRAY_BUFFER 0) ;;
  ret (mkHandles VAO VBO EBO vs fs prog).

(** Lines 127-130: the body of the render loop. *)
Definition render_frame (window : Z) : M unit :=
  CheckedGLCall "glClear(GL_COLOR_BUFFER_BIT)" 127
    (glClear GL_COLOR_BUFFER_BIT) ;;
  CheckedGLCall "glDrawElements(GL_TRIANGLES, 3, GL_UNSIGNED_INT, 0)" 128
    (glDrawElements GL_TRIANGLES 3 GL_UNSIGNED_INT 0) ;;
  glfwSwapBuffers window ;;
  glfwPollEvents.

(** Lines 126-131: [while (!glfwWindowShouldClose(window)) { ... }].  The
    loop ends only when the window answers non-zero, so it is run on a
    budget of tests of the loop condition; [None] means that the loop was
    still running when the budget was spent. *)
Fixpoint render_loop (fuel : nat) (window : Z) (w : World) : option World :=
  match fuel with
  | O => None
  | S fuel' =>
      let (close, w1) := glfwWindowShouldClose window w in
      if close =? 0
      then render_loop fuel' window (snd (render_frame window w1))
      else Some w1
  end.

(** Lines 133-138. *)
Definition teardown (h : Handles) : M unit :=
  CheckedGLCall "glDeleteProgram(prog)" 133 (glDeleteProgram (prog h)) ;;
  CheckedGLCall "glDeleteShader(fs)" 134 (glDeleteShader (fs h)) ;;
  CheckedGLCall "glDeleteShader(vs)" 135 (glDeleteShader (vs h)) ;;
  CheckedGLCall "glDeleteBuffers(1, &EBO)" 136 (glDeleteBuffers 1 (EBO h)) ;;
  CheckedGLCall "glDeleteBuffers(1, &VBO)" 137 (glDeleteBuffers 1 (VBO h)) ;;
  CheckedGLCall "glDeleteVertexArrays(1, &VAO)" 138
    (glDeleteVertexArrays 1 (VAO h)).

(** Lines 53-58. *)
Definition window_hints : M unit :=
  glfwWindowHint GLFW_CONTEXT_VERSION_MAJOR 3 ;;
  glfwWindowHint GLFW_CONTEXT_VERSION_MINOR 3 ;;
  glfwWindowHint GLFW_OPENGL_PROFILE GLFW_OPENGL_CORE_PROFILE ;;
  if __APPLE__ bld then glfwWindowHint GLFW_OPENGL_FORWARD_COMPAT GL_TRUE
  else ret tt.

(** The whole of [main]: the exit code and the final world, or [None] when
    the render loop outlives [fuel].  At line 68 the operands of [<<] are
    evaluated from left to right: the text ["GLEW init error: "] is on
    [std::cerr] before [glewGetErrorString] is called. *)
Definition main (fuel : nat) (w : World) : option (Z * World) :=
  let (ok, w) := glfwInit w in
  if ok =? 0 then Some (-1, w) else
  let (_, w) := window_hints w in
  let (window, w) := glfwCreateWindow 640 480 "Hello World" 0 0 w in
  if window =? 0 then
    let (_, w) := glfwTerminate w in Some (-1, w)
  else
  let (_, w) := glfwMakeContextCurrent window w in
  let (_, w) := set_glewExperimental GL_TRUE w in
  let (err, w) := glewInit w in
  if negb (GLEW_OK =? err) then
    let (_, w) := write Cerr "GLEW init error: " w in
    let (msg, w) := glewGetErrorString err w in
    let (_, w) := write Cerr (msg ++ newline) w in
    let (_, w) := glfwTerminate w in
    Some (-1, w)
  else
  let (h, w) := build_resources w in
  match render_loop fuel window w with
  | None => None
  | Some w =>
      let (_, w) := teardown h w in
      let (_, w) := glfwTerminate w in
      Some (0, w)
  end.

(** The world in which line 73 is reached: lines 50-66 with every
    call succeeding. *)
Definition context_up : World :=
  snd ((glfwInit ;;
        window_hints ;;
        window <- glfwCreateWindow 640 480 "Hello World" 0 0 ;;
        glfwMakeContextCurrent window ;;
        set_glewExperimental GL_TRUE ;;
        glewInit) boot).

End Program.

(** ** Specification vocabulary *)

(** The build that differs from [bld] only in leaving [_DEBUG] undefined. *)
Definition release (bld : Build) : Build :=
  Build_Build false (__APPLE__ bld) (__FILE__ bld).

(** What a run of the fetch loop takes from the recorded flags [q], and what
    it leaves: the loop stops at the first [GL_NO_ERROR] it is handed. *)
Fixpoint fetched (q : list Z) : list Z :=
  match q with
  | [] => []
  | e :: q' => if e =? GL_NO_ERROR then [] else e :: fetched q'
  end.

Fixpoint unfetched (q : list Z) : list Z :=
  match q with
  | [] => []
  | e :: q' => if e =? GL_NO_ERROR then q' else unfetched q'
  end.

(** The events of one run of [PrintOpenGLErrors] over the flags [q]. *)
Definition drain_events (Function File : string) (Line : Z) (q : list Z)
    : list Event :=
  flat_map (fun e => [E_glGetError e;
                      E_write Cerr (report_line Function File Line e)])
           (fetched q)
  ++ [E_glGetError GL_NO_ERROR].

(** [t] begins with a completed run of the fetch loop. *)
Fixpoint starts_with_drain (t : list Event) : bool :=
  match t with
  | E_glGetError e :: t' =>
      if e =? GL_NO_ERROR then true
      else match t' with
           | E_write Cerr _ :: t'' => starts_with_drain t''
           | _ => false
           end
  | _ => false
  end.

(** The window answers "close" at its [k]-th test from the [p]-th on, and
    not before. *)
Definition closes_at (drv : Driver) (p k : nat) : Prop :=
  (forall j, (j < k)%nat -> glfwWindowShouldClose_ret drv (p + j) = 0) /\
  glfwWindowShouldClose_ret drv (p + k) <> 0.

(** Two worlds agree on the events selected by [keep], the first having
    [pre] as further history, and on the counters that decide answers. *)
Definition same_run (keep : Event -> bool) (pre : list Event)
    (w w' : World) : Prop :=
  filter keep (trace w) = (pre ++ filter keep (trace w'))%list /\
  polls w = polls w' /\ buffers w = buffers w'.

Definition refines (keep : Event -> bool) {A} (m m' : M A) : Prop :=
  forall pre w w', same_run keep pre w w' ->
    fst (m w) = fst (m' w') /\ same_run keep pre (snd (m w)) (snd (m' w')).

(** The world [w] with its history forgotten. *)
Definition fresh (w : World) : World :=
  mkWorld [] (gl_errors w) (tick w) (polls w) (buffers w).

(** *** The calls of each phase of [main], as lists of events *)

Definition hint_events (bld : Build) : list Event :=
  [E_glfwWindowHint GLFW_CONTEXT_VERSION_MAJOR 3;
   E_glfwWindowHint GLFW_CONTEXT_VERSION_MINOR 3;
   E_glfwWindowHint GLFW_OPENGL_PROFILE GLFW_OPENGL_CORE_PROFILE]
  ++ (if __APPLE__ bld
      then [E_glfwWindowHint GLFW_OPENGL_FORWARD_COMPAT GL_TRUE] else []).

Definition startup_events (drv : Driver) (bld : Build) : list Event :=
  E_glfwInit (glfwInit_ret drv) :: hint_events bld
  ++ [E_glfwCreateWindow 640 480 "Hello World" 0 0 (glfwCreateWindow_ret drv);
      E_glfwMakeContextCurrent (glfwCreateWindow_ret drv);
      E_glewExperimental GL_TRUE;
      E_glewInit (glewInit_ret drv)].

Definition info_log_events (drv : Driver) (Shader : Z) : list Event :=
  let sh := to_GLuint Shader in
  let out := glGetShaderiv_out drv sh GL_INFO_LOG_LENGTH in
  let len := match out with Some v => v | None => 0 end in
  E_glGetShaderiv sh GL_INFO_LOG_LENGTH out ::
  if len >? 1 then
    let copied := substring 0 (Z.to_nat len - 1)
                            (glGetShaderInfoLog_out drv sh) in
    [E_glGetShaderInfoLog sh len copied;
     E_write Cout ("Shader Info Log:" ++ newline
                   ++ store_chars (nuls (Z.to_nat len)) (copied ++ String nul "")
                   ++ newline)]
  else [].

(** The variable [compiled] after the status query of the shader of kind
    [type], when it held [compiled] before. *)
Definition compiled_after (drv : Driver) (type compiled : Z) : Z :=
  match glGetShaderiv_out drv (glCreateShader_ret drv type) GL_COMPILE_STATUS
  with
  | Some v => v
  | None => compiled
  end.

Definition compile_events (drv : Driver) (type : Z) (source failed : string)
    (compiled : Z) : list Event :=
  let sh := glCreateShader_ret drv type in
  [E_glCreateShader type sh;
   E_glShaderSource sh 1 source 0;
   E_glCompileShader sh;
   E_glGetShaderiv sh GL_COMPILE_STATUS
                   (glGetShaderiv_out drv sh GL_COMPILE_STATUS)]
  ++ (if compiled_after drv type compiled =? 0
      then E_write Cerr (failed ++ newline)
           :: info_log_events drv (to_GLint sh)
      else []).

(** The handles [main] obtains when [b] buffers were generated before. *)
Definition resource_handles (drv : Driver) (b : nat) : Handles :=
  mkHandles (glGenVertexArrays_out drv)
            (glGenBuffers_out drv b) (glGenBuffers_out drv (S b))
            (glCreateShader_ret drv GL_VERTEX_SHADER)
            (glCreateShader_ret drv GL_FRAGMENT_SHADER)
            (glCreateProgram_ret drv).

Definition link_events (drv : Driver) (h : Handles) : list Event :=
  let posLoc := glGetAttribLocation_ret drv (prog h) "position" in
  [E_glCreateProgram (prog h);
   E_glAttachShader (prog h) (vs h);
   E_glAttachShader (prog h) (fs h);
   E_glBindFragDataLocation (prog h) 0 "outColor";
   E_glLinkProgram (prog h);
   E_glUseProgram (prog h);
   E_glGetAttribLocation (prog h) "position" posLoc;
   E_glEnableVertexAttribArray (to_GLuint posLoc);
   E_glBindBuffer GL_ARRAY_BUFFER (VBO h);
   E_glVertexAttribPointer (to_GLuint posLoc) 2 GL_FLOAT GL_FALSE 0 0;
   E_glBindBuffer GL_ARRAY_BUFFER 0].

Definition upload_events (h : Handles) : list Event :=
  [E_glGenVertexArrays 1 (VAO h);
   E_glBindVertexArray (VAO h);
   E_glGenBuffers 1 (VBO h);
   E_glBindBuffer GL_ARRAY_BUFFER (VBO h);
   E_glBufferData GL_ARRAY_BUFFER 24 (FloatArray Vertices) GL_STATIC_DRAW;
   E_glBindBuffer GL_ARRAY_BUFFER 0;
   E_glGenBuffers 1 (EBO h);
   E_glBindBuffer GL_ELEMENT_ARRAY_BUFFER (EBO h);
   E_glBufferData GL_ELEMENT_ARRAY_BUFFER 12 (UIntArray Elements)
                  GL_STATIC_DRAW].

Definition resource_events (drv : Driver) (b : nat) : list Event :=
  let h := resource_handles drv b in
  upload_events h
  ++ compile_events drv GL_VERTEX_SHADER VertexShaderSource
                    "Vertex shader failed" 0
  ++ compile_events drv GL_FRAGMENT_SHADER FragmentShaderSource
                    "Fragment shader failed"
                    (compiled_after drv GL_VERTEX_SHADER 0)
  ++ link_events drv h.

Definition frame_events (window : Z) : list Event :=
  [E_glClear GL_COLOR_BUFFER_BIT;
   E_glDrawElements GL_TRIANGLES 3 GL_UNSIGNED_INT 0;
   E_glfwSwapBuffers window;
   E_glfwPollEvents].

(** [k] turns of the render loop: the test answers [0], then one frame. *)
Definition loop_events (window : Z) (k : nat) : list Event :=
  List.concat
    (repeat (E_glfwWindowShouldClose window 0 :: frame_events window) k).

Definition teardown_events (h : Handles) : list Event :=
  [E_glDeleteProgram (prog h);
   E_glDeleteShader (fs h);
   E_glDeleteShader (vs h);
   E_glDeleteBuffers 1 (EBO h);
   E_glDeleteBuffers 1 (VBO h);
   E_glDeleteVertexArrays 1 (VAO h)].


(** [s] occurs in [t] as a block of consecutive events. *)
Definition occurs_in (s t : list Event) : Prop :=
  exists pre post, t = (pre ++ s ++ post)%list.

(** *** Sample drivers and builds *)

(** Everything succeeds; the window asks to close at its third test; the
    seventh foreign call ([glewInit]) records [GL_INVALID_ENUM]. *)
Definition sample_driver : Driver := {|
  glfwInit_ret := 1;
  glfwCreateWindow_ret := 4096;
  glfwWindowShouldClose_ret := fun n => if (n <? 2)%nat then 0 else 1;
  glewInit_ret := GLEW_OK;
  glewGetErrorString_ret := fun _ => "No error";
  glGenVertexArrays_out := 1;
  glGenBuffers_out := fun n => Z.of_nat n + 1;
  glCreateShader_ret := fun type => if type =? GL_VERTEX_SHADER then 1 else 2;
  glGetShaderiv_out := fun _ pname =>
    if pname =? GL_COMPILE_STATUS then Some GL_TRUE else Some 0;
  glGetShaderInfoLog_out := fun _ => "";
  glCreateProgram_ret := 3;
  glGetAttribLocation_ret := fun _ _ => 0;
  gl_faults := fun n => if (n =? 6)%nat then [GL_INVALID_ENUM] else []
|}.

Definition no_glfw_driver : Driver := {|
  glfwInit_ret := 0;
  glfwCreateWindow_ret := glfwCreateWindow_ret sample_driver;
  glfwWindowShouldClose_ret := glfwWindowShouldClose_ret sample_driver;
  glewInit_ret := glewInit_ret sample_driver;
  glewGetErrorString_ret := glewGetErrorString_ret sample_driver;
  glGenVertexArrays_out := glGenVertexArrays_out sample_driver;
  glGenBuffers_out := glGenBuffers_out sample_driver;
  glCreateShader_ret := glCreateShader_ret sample_driver;
  glGetShaderiv_out := glGetShaderiv_out sample_driver;
  glGetShaderInfoLog_out := glGetShaderInfoLog_out sample_driver;
  glCreateProgram_ret := glCreateProgram_ret sample_driver;
  glGetAttribLocation_ret := glGetAttribLocation_ret sample_driver;
  gl_faults := gl_faults sample_driver
|}.

Definition no_window_driver : Driver := {|
  glfwInit_ret := 1;
  glfwCreateWindow_ret := 0;
  glfwWindowShouldClose_ret := glfwWindowShouldClose_ret sample_driver;
  glewInit_ret := glewInit_ret sample_driver;
  glewGetErrorString_ret := glewGetErrorString_ret sample_driver;
  glGenVertexArrays_out := glGenVertexArrays_out sample_driver;
  glGenBuffers_out := glGenBuffers_out sample_driver;
  glCreateShader_ret := glCreateShader_ret sample_driver;
  glGetShaderiv_out := glGetShaderiv_out sample_driver;
  glGetShaderInfoLog_out := glGetShaderInfoLog_out sample_driver;
  glCreateProgram_ret := glCreateProgram_ret sample_driver;
  glGetAttribLocation_ret := glGetAttribLocation_ret sample_driver;
  gl_faults := gl_faults sample_driver
|}.

Definition no_loader_driver : Driver := {|
  glfwInit_ret := 1;
  glfwCreateWindow_ret := 4096;
  glfwWindowShouldClose_ret := glfwWindowShouldClose_ret sample_driver;
  glewInit_ret := 1;
  glewGetErrorString_ret := fun _ => "Missing GL version";
  glGenVertexArrays_out := glGenVertexArrays_out sample_driver;
  glGenBuffers_out := glGenBuffers_out sample_driver;
  glCreateShader_ret := glCreateShader_ret sample_driver;
  glGetShaderiv_out := glGetShaderiv_out sample_driver;
  glGetShaderInfoLog_out := glGetShaderInfoLog_out sample_driver;
  glCreateProgram_ret := glCreateProgram_ret sample_driver;
  glGetAttribLocation_ret := glGetAttribLocation_ret sample_driver;
  gl_faults := gl_faults sample_driver
|}.

(** Both shaders fail to compile; the vertex shader has a five-character
    log, the fragment shader none; the query of the vertex shader's log
    length (the twenty-first foreign call of [main], made outside any
    checked call) records [GL_INVALID_OPERATION]. *)
Definition bad_shader_driver : Driver := {|
  glfwInit_ret := 1;
  glfwCreateWindow_ret := 4096;
  glfwWindowShouldClose_ret := glfwWindowShouldClose_ret sample_driver;
  glewInit_ret := GLEW_OK;
  glewGetErrorString_ret := glewGetErrorString_ret sample_driver;
  glGenVertexArrays_out := 1;
  glGenBuffers_out := glGenBuffers_out sample_driver;
  glCreateShader_ret := glCreateShader_ret sample_driver;
  glGetShaderiv_out := fun shader pname =>
    if pname =? GL_COMPILE_STATUS then Some GL_FALSE
    else if shader =? 1 then Some 6 else Some 1;
  glGetShaderInfoLog_out := fun _ => "error";
  glCreateProgram_ret := 3;
  glGetAttribLocation_ret := fun _ _ => -1;
  gl_faults := fun n => if (n =? 20)%nat then [GL_INVALID_OPERATION] else []
|}.

Definition debug_build : Build :=
  {| _DEBUG := true; __APPLE__ := false; __FILE__ := "main.cpp" |}.

Definition release_build : Build :=
  {| _DEBUG := false; __APPLE__ := false; __FILE__ := "main.cpp" |}.

(** *** Further vocabulary *)

(** The calls into OpenGL proper, [glGetError] included. *)
Definition is_gl_call (e : Event) : bool :=
  match e with
  | E_glfwInit _ | E_glfwWindowHint _ _ | E_glfwCreateWindow _ _ _ _ _ _
  | E_glfwMakeContextCurrent _ | E_glfwWindowShouldClose _ _
  | E_glfwSwapBuffers _ | E_glfwPollEvents | E_glfwTerminate
  | E_glewExperimental _ | E_glewInit _ | E_glewGetErrorString _ _
  | E_write _ _ => false
  | _ => true
  end.

(** Every recorded flag is an error code, as OpenGL has it: [GL_NO_ERROR]
    is what [glGetError] answers when no flag is recorded, never a flag. *)
Definition flags_set (q : list Z) : Prop :=
  Forall (fun e => e <> GL_NO_ERROR) q.

Definition records_errors_only (drv : Driver) : Prop :=
  forall n, flags_set (gl_faults drv n).

(** The reports of one run of the fetch loop over the codes [codes]. *)
Definition reports (Function File : string) (Line : Z) (codes : list Z)
    : list Event :=
  flat_map (fun e => [E_glGetError e;
                      E_write Cerr (report_line Function File Line e)])
           codes.

(** A Hoare triple over the state monad. *)
Definition hoare {A} (P : World -> Prop) (m : M A)
    (Q : A -> World -> Prop) : Prop :=
  forall w, P w -> Q (fst (m w)) (snd (m w)).

(** [m] keeps the invariant [I]. *)
Definition keeps {A} (I : World -> Prop) (m : M A) : Prop :=
  hoare I m (fun _ => I).

(** The six codes that [GlErrorToString] knows. *)
Definition standard_codes : list Z :=
  [GL_NO_ERROR; GL_INVALID_ENUM; GL_INVALID_VALUE; GL_INVALID_OPERATION;
   GL_INVALID_FRAMEBUFFER_OPERATION; GL_OUT_OF_MEMORY].

(** As [bad_shader_driver], but the status query of the fragment shader
    stores nothing. *)
Definition mute_fragment_driver : Driver := {|
  glfwInit_ret := 1;
  glfwCreateWindow_ret := 4096;
  glfwWindowShouldClose_ret := glfwWindowShouldClose_ret sample_driver;
  glewInit_ret := GLEW_OK;
  glewGetErrorString_ret := glewGetErrorString_ret sample_driver;
  glGenVertexArrays_out := 1;
  glGenBuffers_out := glGenBuffers_out sample_driver;
  glCreateShader_ret := glCreateShader_ret sample_driver;
  glGetShaderiv_out := fun shader pname =>
    if shader =? 2 then None else glGetShaderiv_out bad_shader_driver shader pname;
  glGetShaderInfoLog_out := fun _ => "error";
  glCreateProgram_ret := 3;
  glGetAttribLocation_ret := fun _ _ => 0;
  gl_faults := fun _ => []
|}.

(** As [no_loader_driver], with an error string that begins as the
    reports of [PrintOpenGLErrors] do. *)
Definition report_like_loader_driver : Driver := {|
  glfwInit_ret := 1;
  glfwCreateWindow_ret := 4096;
  glfwWindowShouldClose_ret := glfwWindowShouldClose_ret sample_driver;
  glewInit_ret := 1;
  glewGetErrorString_ret := fun _ => "OpenGL Error in GLEW";
  glGenVertexArrays_out := glGenVertexArrays_out sample_driver;
  glGenBuffers_out := glGenBuffers_out sample_driver;
  glCreateShader_ret := glCreateShader_ret sample_driver;
  glGetShaderiv_out := glGetShaderiv_out sample_driver;
  glGetShaderInfoLog_out := glGetShaderInfoLog_out sample_driver;
  glCreateProgram_ret := glCreateProgram_ret sample_driver;
  glGetAttribLocation_ret := glGetAttribLocation_ret sample_driver;
  gl_faults := gl_faults sample_driver
|}.

(** * Properties *)

(** ** The fetch loop *)

Lemma PrintOpenGLErrors_step Function File Line w :
  PrintOpenGLErrors Function File Line w =
  let (err, w1) := glGetError w in
  if negb (err =? GL_NO_ERROR)
  then PrintOpenGLErrors Function File Line
         (snd (write Cerr (report_line Function File Line err) w1))
  else (tt, w1).
Proof.
  funelim (PrintOpenGLErrors Function File Line w).
  - rewrite Hfetch, Hloop. reflexivity.
  - rewrite Hfetch, e. reflexivity.
Qed.

Lemma PrintOpenGLErrors_run Function File Line w :
  PrintOpenGLErrors Function File Line w =
  (tt, mkWorld (trace w ++ drain_events Function File Line (gl_errors w))
               (unfetched (gl_errors w)) (tick w) (polls w) (buffers w)).
Proof.
  destruct w as [t q ti po bu]. revert t.
  induction q as [|e q IH]; intros t; rewrite PrintOpenGLErrors_step.
  - reflexivity.
  - unfold glGetError; simpl. destruct (e =? GL_NO_ERROR) eqn:He; simpl.
    + apply Z.eqb_eq in He. subst e. reflexivity.
    + rewrite IH. unfold drain_events. simpl. rewrite He. simpl.
      rewrite <- !app_assoc. reflexivity.
Qed.

Lemma fetched_all q :
  Forall (fun e => e <> GL_NO_ERROR) q -> fetched q = q /\ unfetched q = [].
Proof.
  induction 1 as [|e q He _ [IHf IHu]]; simpl; [auto|].
  apply Z.eqb_neq in He. rewrite He, IHf, IHu. auto.
Qed.

Lemma report_line_is_diagnostic Function File Line err :
  is_diagnostic (E_write Cerr (report_line Function File Line err)) = true.
Proof. reflexivity. Qed.

Lemma drain_events_diagnostic Function File Line q :
  Forall (fun e => is_diagnostic e = true)
         (drain_events Function File Line q).
Proof.
  unfold drain_events. apply Forall_app. split.
  - induction (fetched q) as [|e l IH]; simpl; [constructor|].
    repeat constructor. exact IH.
  - repeat constructor.
Qed.

Lemma drain_events_start Function File Line q rest :
  starts_with_drain (drain_events Function File Line q ++ rest) = true.
Proof.
  unfold drain_events. induction q as [|e q IH]; [reflexivity|].
  cbn [fetched]. destruct (e =? GL_NO_ERROR) eqn:He; [reflexivity|].
  cbn [flat_map app starts_with_drain]. rewrite He. exact IH.
Qed.

Lemma append_assoc (s1 s2 s3 : string) :
  (s1 ++ s2) ++ s3 = s1 ++ (s2 ++ s3).
Proof. induction s1 as [|a s1 IH]; simpl; [reflexivity|now rewrite IH]. Qed.

Lemma append_nil_r (s : string) : s ++ "" = s.
Proof. induction s as [|a s IH]; simpl; [reflexivity|now rewrite IH]. Qed.

Lemma stream_text_app s t1 t2 :
  stream_text s (t1 ++ t2) = stream_text s t1 ++ stream_text s t2.
Proof.
  induction t1 as [|e t1 IH]; simpl; [reflexivity|].
  destruct e; try exact IH.
  destruct s, s0; rewrite IH; auto using append_assoc.
Qed.

Lemma stream_text_drain Function File Line q :
  stream_text Cerr (drain_events Function File Line q) =
  fold_right String.append "" (map (report_line Function File Line) (fetched q))
  /\ stream_text Cout (drain_events Function File Line q) = "".
Proof.
  unfold drain_events. rewrite !stream_text_app.
  induction (fetched q) as [|e l [IHe IHo]]; [split; reflexivity|].
  cbn [flat_map map fold_right].
  change (stream_text Cerr ([E_glGetError GL_NO_ERROR])) with "" in *.
  change (stream_text Cout ([E_glGetError GL_NO_ERROR])) with "" in *.
  rewrite !stream_text_app in *.
  split.
  - rewrite <- IHe. cbn [stream_text]. rewrite !append_assoc. reflexivity.
  - rewrite <- IHo at 2. reflexivity.
Qed.

(** ** The diagnostic layer only adds diagnostics

    Whatever the build, each phase of [main] makes the calls of the release
    build, in the same order and with the same answers.  [keep] selects the
    events compared: all of them between two release builds, all but the
    diagnostic ones otherwise. *)

Section Refinement.

Variable drv : Driver.
Variable bld : Build.
Variable keep : Event -> bool.
Hypothesis keep_drops_diagnostics :
  _DEBUG bld = true -> forall e, is_diagnostic e = true -> keep e = false.

Lemma refines_ret {A} (a : A) : refines keep (ret a) (ret a).
Proof. intros pre w w' H. simpl. auto. Qed.

Lemma refines_bind {A B} (m m' : M A) (k k' : A -> M B) :
  refines keep m m' -> (forall a, refines keep (k a) (k' a)) ->
  refines keep (bind m k) (bind m' k').
Proof.
  intros Hm Hk pre w w' H. unfold bind.
  destruct (Hm pre w w' H) as [Ha Hw].
  destruct (m w) as [a w1], (m' w') as [a' w1']. simpl in *. subst a'.
  apply Hk, Hw.
Qed.

Lemma refines_if {A} (c : bool) (m1 m1' m2 m2' : M A) :
  refines keep m1 m1' -> refines keep m2 m2' ->
  refines keep (if c then m1 else m2) (if c then m1' else m2').
Proof. destruct c; auto. Qed.

Lemma refines_emit e : refines keep (emit e) (emit e).
Proof.
  intros pre w w' (Ht & Hp & Hb). unfold emit, same_run; simpl.
  rewrite !filter_app, Ht, app_assoc. auto.
Qed.

Lemma refines_write s text : refines keep (write s text) (write s text).
Proof. apply refines_emit. Qed.

Lemma refines_foreign e : refines keep (foreign drv e) (foreign drv e).
Proof.
  intros pre w w' (Ht & Hp & Hb). unfold foreign, same_run; simpl.
  rewrite !filter_app, Ht, app_assoc. auto.
Qed.

Lemma refines_glGenBuffers n :
  refines keep (glGenBuffers drv n) (glGenBuffers drv n).
Proof.
  intros pre w w' (Ht & Hp & Hb). unfold glGenBuffers, same_run; simpl.
  rewrite !filter_app, Ht, app_assoc, Hb. auto.
Qed.

Lemma refines_glfwWindowShouldClose window :
  refines keep (glfwWindowShouldClose drv window)
               (glfwWindowShouldClose drv window).
Proof.
  intros pre w w' (Ht & Hp & Hb).
  unfold glfwWindowShouldClose, same_run; simpl.
  rewrite !filter_app, Ht, app_assoc, Hp. auto.
Qed.

Lemma filter_drain_events Function File Line q :
  _DEBUG bld = true ->
  filter keep (drain_events Function File Line q) = [].
Proof.
  intros Hd.
  pose proof (drain_events_diagnostic Function File Line q) as H.
  induction H as [|e l He _ IH]; simpl; [reflexivity|].
  rewrite (keep_drops_diagnostics Hd e He). exact IH.
Qed.

Lemma refines_PrintOpenGLErrors Function File Line :
  _DEBUG bld = true ->
  refines keep (PrintOpenGLErrors Function File Line) (ret tt).
Proof.
  intros Hd pre w w' (Ht & Hp & Hb). rewrite PrintOpenGLErrors_run.
  unfold same_run; simpl.
  rewrite filter_app, filter_drain_events, app_nil_r; auto.
Qed.

Lemma refines_skip_before {A} (m : M unit) (k k' : M A) :
  refines keep m (ret tt) -> refines keep k k' ->
  refines keep (bind m (fun _ => k)) k'.
Proof.
  intros Hm Hk pre w w' H. unfold bind.
  destruct (Hm pre w w' H) as [_ Hw]. destruct (m w) as [u w1].
  simpl in *. apply Hk, Hw.
Qed.

Lemma refines_skip_after {A} (x x' : M A) (m : M unit) :
  refines keep x x' -> refines keep m (ret tt) ->
  refines keep (bind x (fun r => bind m (fun _ => ret r))) x'.
Proof.
  intros Hx Hm pre w w' H. unfold bind.
  destruct (Hx pre w w' H) as [Ha Hw]. destruct (x w) as [a w1].
  simpl in *. destruct (Hm pre w1 (snd (x' w')) Hw) as [_ Hw2].
  destruct (m w1) as [u w2]. simpl in *. auto.
Qed.

Lemma refines_CheckedGLCall {A} text line (x x' : M A) :
  refines keep x x' ->
  refines keep (CheckedGLCall bld text line x)
               (CheckedGLCall (release bld) text line x').
Proof.
  intros Hx. unfold CheckedGLCall. cbn [release _DEBUG].
  destruct (Bool.bool_dec (_DEBUG bld) true) as [Hd|Hd];
    [rewrite Hd|apply not_true_is_false in Hd; rewrite Hd; exact Hx].
  apply refines_skip_before; [now apply refines_PrintOpenGLErrors|].
  apply refines_skip_after; [exact Hx|now apply refines_PrintOpenGLErrors].
Qed.

Lemma refines_CheckedGLResult {A} text line (x x' : M A) :
  refines keep x x' ->
  refines keep (CheckedGLResult bld text line x)
               (CheckedGLResult (release bld) text line x').
Proof.
  intros Hx. unfold CheckedGLResult. cbn [release _DEBUG].
  destruct (Bool.bool_dec (_DEBUG bld) true) as [Hd|Hd];
    [rewrite Hd|apply not_true_is_false in Hd; rewrite Hd; exact Hx].
  apply refines_skip_after; [exact Hx|now apply refines_PrintOpenGLErrors].
Qed.

Ltac refines_step :=
  first
    [ apply refines_bind; [|intro]
    | apply refines_CheckedGLCall
    | apply refines_CheckedGLResult
    | apply refines_if
    | apply refines_ret
    | apply refines_write
    | apply refines_foreign
    | apply refines_glGenBuffers
    | apply refines_glfwWindowShouldClose ].

Lemma refines_PrintShaderInfoLog Shader :
  refines keep (PrintShaderInfoLog drv Shader) (PrintShaderInfoLog drv Shader).
Proof.
  unfold PrintShaderInfoLog, glGetShaderiv, glGetShaderInfoLog.
  repeat refines_step.
Qed.

Lemma refines_build_resources :
  refines keep (build_resources drv bld) (build_resources drv (release bld)).
Proof.
  unfold build_resources.
  repeat first [ apply refines_PrintShaderInfoLog | refines_step ].
Qed.

Lemma refines_render_frame window :
  refines keep (render_frame drv bld window)
               (render_frame drv (release bld) window).
Proof. unfold render_frame. repeat refines_step. Qed.

Lemma refines_teardown h :
  refines keep (teardown drv bld h) (teardown drv (release bld) h).
Proof. unfold teardown. repeat refines_step. Qed.

End Refinement.

(** ** The release build, run from a world without history *)

Section Runs.

Variable drv : Driver.
Variable bld : Build.

Ltac run :=
  cbv beta iota zeta delta
    [build_resources render_frame teardown resource_events upload_events
     link_events resource_handles compile_events compiled_after
     info_log_events frame_events teardown_events
     PrintShaderInfoLog CheckedGLCall CheckedGLResult
     release _DEBUG __APPLE__ __FILE__ bind ret foreign emit write
     glGenVertexArrays glBindVertexArray glGenBuffers glBindBuffer
     glBufferData glCreateShader glShaderSource glCompileShader
     glGetShaderiv glGetShaderInfoLog glCreateProgram glAttachShader
     glBindFragDataLocation glLinkProgram glUseProgram glGetAttribLocation
     glEnableVertexAttribArray glVertexAttribPointer glClear glDrawElements
     glfwSwapBuffers glfwPollEvents glDeleteProgram glDeleteShader
     glDeleteBuffers glDeleteVertexArrays
     VAO VBO EBO vs fs prog
     fst snd trace polls buffers tick gl_errors app].

Ltac split_status :=
  match goal with
  | |- context [match glGetShaderiv_out drv ?a ?b with _ => _ end] =>
      destruct (glGetShaderiv_out drv a b)
  | |- context [if ?v =? 0 then _ else _] => destruct (v =? 0)
  | |- context [if ?v >? 1 then _ else _] => destruct (v >? 1)
  end.

Lemma build_resources_release_run q t p b :
  let r := build_resources drv (release bld) (mkWorld [] q t p b) in
  fst r = resource_handles drv b /\
  trace (snd r) = resource_events drv b /\
  polls (snd r) = p /\ buffers (snd r) = S (S b).
Proof.
  run. repeat (split_status; run). all: repeat split; reflexivity.
Qed.

Lemma render_frame_release_run window q t p b :
  let r := render_frame drv (release bld) window (mkWorld [] q t p b) in
  trace (snd r) = frame_events window /\
  polls (snd r) = p /\ buffers (snd r) = b.
Proof. run. repeat split; reflexivity. Qed.

Lemma teardown_release_run h q t p b :
  let r := teardown drv (release bld) h (mkWorld [] q t p b) in
  trace (snd r) = teardown_events h /\
  polls (snd r) = p /\ buffers (snd r) = b.
Proof. run. repeat split; reflexivity. Qed.

Lemma resource_events_not_diagnostic b :
  program_events (resource_events drv b) = resource_events drv b.
Proof.
  run. repeat (split_status; run). all: reflexivity.
Qed.

End Runs.

(** ** Each phase of [main], in any build *)

Lemma filter_all {A} (l : list A) : filter (fun _ => true) l = l.
Proof. induction l as [|a l IH]; simpl; [reflexivity|now rewrite IH]. Qed.

Lemma refines_from_fresh keep {A} (m m' : M A) w :
  refines keep m m' ->
  fst (m w) = fst (m' (fresh w)) /\
  filter keep (trace (snd (m w))) =
    (filter keep (trace w) ++ filter keep (trace (snd (m' (fresh w)))))%list /\
  polls (snd (m w)) = polls (snd (m' (fresh w))) /\
  buffers (snd (m w)) = buffers (snd (m' (fresh w))).
Proof.
  intros H.
  destruct (H (filter keep (trace w)) w (fresh w)) as [Ha Hw].
  - unfold same_run, fresh; simpl. rewrite app_nil_r. auto.
  - split; [exact Ha|exact Hw].
Qed.

Section Phases.

Variable drv : Driver.
Variable bld : Build.

Lemma keep_program_events :
  _DEBUG bld = true ->
  forall e, is_diagnostic e = true -> negb (is_diagnostic e) = false.
Proof. intros _ e He. now rewrite He. Qed.

Lemma keep_everything :
  _DEBUG bld = false ->
  _DEBUG bld = true ->
  forall e : Event, is_diagnostic e = true -> true = false.
Proof. congruence. Qed.

Lemma build_resources_events w :
  let r := build_resources drv bld w in
  fst r = resource_handles drv (buffers w) /\
  program_events (trace (snd r)) =
    (program_events (trace w) ++ resource_events drv (buffers w))%list /\
  polls (snd r) = polls w /\ buffers (snd r) = S (S (buffers w)).
Proof.
  destruct (refines_from_fresh _ _ _ w
              (refines_build_resources drv bld _ keep_program_events))
    as (Ha & Ht & Hp & Hb).
  destruct (build_resources_release_run drv bld
              (gl_errors w) (tick w) (polls w) (buffers w))
    as (Ra & Rt & Rp & Rb).
  unfold fresh in *. cbv zeta. rewrite Ha, Hp, Hb, Ra, Rp, Rb.
  unfold program_events in *. rewrite Ht, Rt.
  rewrite (resource_events_not_diagnostic drv). auto.
Qed.

Lemma render_frame_events window w :
  let r := render_frame drv bld window w in
  program_events (trace (snd r)) =
    (program_events (trace w) ++ frame_events window)%list /\
  polls (snd r) = polls w /\ buffers (snd r) = buffers w.
Proof.
  destruct (refines_from_fresh _ _ _ w
              (refines_render_frame drv bld _ keep_program_events window))
    as (Ha & Ht & Hp & Hb).
  destruct (render_frame_release_run drv bld window
              (gl_errors w) (tick w) (polls w) (buffers w))
    as (Rt & Rp & Rb).
  unfold fresh in *. cbv zeta. rewrite Hp, Hb, Rp, Rb.
  unfold program_events in *. rewrite Ht, Rt. auto.
Qed.

Lemma teardown_events_of h w :
  let r := teardown drv bld h w in
  program_events (trace (snd r)) =
    (program_events (trace w) ++ teardown_events h)%list /\
  polls (snd r) = polls w /\ buffers (snd r) = buffers w.
Proof.
  destruct (refines_from_fresh _ _ _ w
              (refines_teardown drv bld _ keep_program_events h))
    as (Ha & Ht & Hp & Hb).
  destruct (teardown_release_run drv bld h
              (gl_errors w) (tick w) (polls w) (buffers w))
    as (Rt & Rp & Rb).
  unfold fresh in *. cbv zeta. rewrite Hp, Hb, Rp, Rb.
  unfold program_events in *. rewrite Ht, Rt. auto.
Qed.

(** Without [_DEBUG], the same holds of the whole trace. *)
Lemma release_phases :
  _DEBUG bld = false ->
  (forall w, trace (snd (build_resources drv bld w)) =
             (trace w ++ resource_events drv (buffers w))%list) /\
  (forall window w, trace (snd (render_frame drv bld window w)) =
                    (trace w ++ frame_events window)%list) /\
  (forall h w, trace (snd (teardown drv bld h w)) =
               (trace w ++ teardown_events h)%list).
Proof.
  intros Hd. repeat split; intros.
  - destruct (refines_from_fresh _ _ _ w
                (refines_build_resources drv bld _ (keep_everything Hd)))
      as (_ & Ht & _).
    destruct (build_resources_release_run drv bld
                (gl_errors w) (tick w) (polls w) (buffers w))
      as (_ & Rt & _).
    unfold fresh in *. rewrite !filter_all, Rt in Ht. exact Ht.
  - destruct (refines_from_fresh _ _ _ w
                (refines_render_frame drv bld _ (keep_everything Hd) window))
      as (_ & Ht & _).
    destruct (render_frame_release_run drv bld window
                (gl_errors w) (tick w) (polls w) (buffers w))
      as (Rt & _).
    unfold fresh in *. rewrite !filter_all, Rt in Ht. exact Ht.
  - destruct (refines_from_fresh _ _ _ w
                (refines_teardown drv bld _ (keep_everything Hd) h))
      as (_ & Ht & _).
    destruct (teardown_release_run drv bld h
                (gl_errors w) (tick w) (polls w) (buffers w))
      as (Rt & _).
    unfold fresh in *. rewrite !filter_all, Rt in Ht. exact Ht.
Qed.

End Phases.

(** ** The render loop *)

Section Loop.

Variable drv : Driver.
Variable bld : Build.

Lemma program_events_snoc t e :
  is_diagnostic e = false ->
  program_events (t ++ [e]) = (program_events t ++ [e])%list.
Proof.
  intros He. unfold program_events. rewrite filter_app. simpl.
  now rewrite He.
Qed.

Lemma closes_at_next p k :
  closes_at drv p (S k) -> closes_at drv (S p) k.
Proof.
  intros [Hrun Hstop]. split.
  - intros j Hj. replace (S p + j)%nat with (p + S j)%nat by lia.
    apply Hrun. lia.
  - now replace (S p + k)%nat with (p + S k)%nat by lia.
Qed.

Lemma render_loop_exits k : forall fuel window w,
  closes_at drv (polls w) k -> (k < fuel)%nat ->
  exists w',
    render_loop drv bld fuel window w = Some w' /\
    program_events (trace w') =
      (program_events (trace w) ++ loop_events window k
       ++ [E_glfwWindowShouldClose window
             (glfwWindowShouldClose_ret drv (polls w + k))])%list /\
    polls w' = S (polls w + k) /\ buffers w' = buffers w.
Proof.
  induction k as [|k IH]; intros fuel window w Hc Hf;
    (destruct fuel as [|fuel]; [lia|]); cbn [render_loop];
    unfold glfwWindowShouldClose at 1.
  - destruct Hc as [_ Hstop]. rewrite Nat.add_0_r in *.
    apply Z.eqb_neq in Hstop. rewrite Hstop.
    eexists. split; [reflexivity|]. cbn [trace polls buffers].
    rewrite program_events_snoc by reflexivity. auto.
  - pose proof (proj1 Hc 0%nat ltac:(lia)) as Hrun.
    rewrite Nat.add_0_r in Hrun. rewrite Hrun. cbn [Z.eqb].
    match goal with
    | |- context [render_frame drv bld window ?w1] =>
        destruct (render_frame_events drv bld window w1) as (Ft & Fp & Fb);
        set (w2 := snd (render_frame drv bld window w1)) in *
    end.
    cbn [trace polls buffers] in Ft, Fp, Fb.
    destruct (IH fuel window w2) as (w' & Hrun' & Ht & Hp & Hb).
    + rewrite Fp. now apply closes_at_next.
    + lia.
    + exists w'. split; [exact Hrun'|].
      rewrite Ht, Ft, Hp, Hb, Fp, Fb.
      rewrite program_events_snoc by reflexivity.
      repeat split; [|lia].
      replace (S (polls w) + k)%nat with (polls w + S k)%nat by lia.
      unfold loop_events. cbn [repeat List.concat].
      rewrite <- !app_assoc. reflexivity.
Qed.

Lemma render_loop_keeps_running fuel : forall window w,
  (forall j, (j < fuel)%nat ->
             glfwWindowShouldClose_ret drv (polls w + j) = 0) ->
  render_loop drv bld fuel window w = None.
Proof.
  induction fuel as [|fuel IH]; intros window w Hrun; [reflexivity|].
  cbn [render_loop]. unfold glfwWindowShouldClose at 1.
  pose proof (Hrun 0%nat ltac:(lia)) as H0. rewrite Nat.add_0_r in H0.
  rewrite H0. cbn [Z.eqb]. apply IH. intros j Hj.
  match goal with
  | |- context [render_frame drv bld window ?w1] =>
      destruct (render_frame_events drv bld window w1) as (_ & Fp & _)
  end.
  rewrite Fp. cbn [polls]. rewrite Nat.add_succ_l, <- Nat.add_succ_r.
  apply Hrun. lia.
Qed.

Lemma render_loop_exit_only_on_close fuel : forall window w w',
  render_loop drv bld fuel window w = Some w' ->
  exists k, (k < fuel)%nat /\ closes_at drv (polls w) k.
Proof.
  induction fuel as [|fuel IH]; intros window w w' H; [discriminate|].
  cbn [render_loop] in H. unfold glfwWindowShouldClose at 1 in H.
  destruct (glfwWindowShouldClose_ret drv (polls w) =? 0) eqn:Hc.
  - apply Z.eqb_eq in Hc. apply IH in H. destruct H as (k & Hk & Hrun & Hstop).
    match type of Hstop with
    | context [render_frame drv bld window ?w1] =>
        destruct (render_frame_events drv bld window w1) as (_ & Fp & _)
    end.
    rewrite Fp in Hrun, Hstop. cbn [polls] in Hrun, Hstop.
    exists (S k). split; [lia|]. split.
    + intros [|j] Hj; [now rewrite Nat.add_0_r|].
      rewrite Nat.add_succ_r, <- Nat.add_succ_l. apply Hrun. lia.
    + now rewrite Nat.add_succ_r, <- Nat.add_succ_l.
  - apply Z.eqb_neq in Hc. exists 0%nat. split; [lia|]. split.
    + intros j Hj. lia.
    + now rewrite Nat.add_0_r.
Qed.

End Loop.

(** ** [main] *)

Section Main.

Variable drv : Driver.
Variable bld : Build.

Ltac startup :=
  unfold main;
  cbv beta iota zeta delta
    [glfwInit window_hints glfwWindowHint glfwCreateWindow glfwTerminate
     glfwMakeContextCurrent set_glewExperimental glewInit
     glewGetErrorString write emit foreign bind ret boot
     trace gl_errors tick polls buffers].

Lemma main_without_glfw fuel :
  glfwInit_ret drv = 0 ->
  main drv bld fuel boot =
  Some (-1, mkWorld [E_glfwInit 0] (gl_faults drv 0) 1 0 0).
Proof. intros H. startup. rewrite H. reflexivity. Qed.

Lemma main_without_window fuel :
  glfwInit_ret drv <> 0 -> glfwCreateWindow_ret drv = 0 ->
  exists w,
    main drv bld fuel boot = Some (-1, w) /\
    trace w =
      (E_glfwInit (glfwInit_ret drv) :: hint_events bld
       ++ [E_glfwCreateWindow 640 480 "Hello World" 0 0 0;
           E_glfwTerminate])%list.
Proof.
  intros Hi Hw. startup. apply Z.eqb_neq in Hi. rewrite Hi, Hw.
  unfold hint_events.
  destruct (__APPLE__ bld); eexists; (split; [reflexivity|reflexivity]).
Qed.

Lemma main_without_loader fuel :
  glfwInit_ret drv <> 0 -> glfwCreateWindow_ret drv <> 0 ->
  glewInit_ret drv <> GLEW_OK ->
  exists w,
    main drv bld fuel boot = Some (-1, w) /\
    trace w =
      (startup_events drv bld
       ++ [E_write Cerr "GLEW init error: ";
           E_glewGetErrorString (glewInit_ret drv)
             (glewGetErrorString_ret drv (glewInit_ret drv));
           E_write Cerr (glewGetErrorString_ret drv (glewInit_ret drv)
                         ++ newline);
           E_glfwTerminate])%list.
Proof.
  intros Hi Hw He. startup.
  apply Z.eqb_neq in Hi, Hw. rewrite Hi, Hw.
  assert ((GLEW_OK =? glewInit_ret drv) = false) as ->
    by (apply Z.eqb_neq; congruence).
  unfold startup_events, hint_events.
  destruct (__APPLE__ bld); eexists; (split; [reflexivity|reflexivity]).
Qed.

(** Once the context is up, [main] is the three remaining phases. *)
Lemma main_with_context fuel :
  glfwInit_ret drv <> 0 -> glfwCreateWindow_ret drv <> 0 ->
  glewInit_ret drv = GLEW_OK ->
  main drv bld fuel boot =
  match render_loop drv bld fuel (glfwCreateWindow_ret drv)
                    (snd (build_resources drv bld (context_up drv bld))) with
  | None => None
  | Some w =>
      Some (0, snd (glfwTerminate drv
                      (snd (teardown drv bld
                              (fst (build_resources drv bld
                                      (context_up drv bld))) w))))
  end.
Proof.
  intros Hi Hw He. apply Z.eqb_neq in Hi, Hw.
  unfold main, context_up.
  cbv beta iota zeta delta
    [glfwInit window_hints glfwWindowHint glfwCreateWindow
     glfwMakeContextCurrent set_glewExperimental glewInit glfwTerminate
     emit foreign bind ret boot fst snd
     trace gl_errors tick polls buffers].
  rewrite Hi.
  destruct (__APPLE__ bld); rewrite Hw, He; cbn [GLEW_OK Z.eqb negb];
    (destruct (build_resources drv bld _) as [h w1];
     destruct (render_loop drv bld fuel _ w1) as [w2|]; [|reflexivity];
     destruct (teardown drv bld h w2) as [u w3]; reflexivity).
Qed.

Lemma context_up_world :
  trace (context_up drv bld) = startup_events drv bld /\
  polls (context_up drv bld) = 0%nat /\
  buffers (context_up drv bld) = 0%nat.
Proof.
  unfold context_up, startup_events, hint_events.
  cbv beta iota zeta delta
    [glfwInit window_hints glfwWindowHint glfwCreateWindow
     glfwMakeContextCurrent set_glewExperimental glewInit
     emit foreign bind ret boot fst snd
     trace gl_errors tick polls buffers].
  destruct (__APPLE__ bld); repeat split; reflexivity.
Qed.

Lemma startup_events_not_diagnostic :
  program_events (startup_events drv bld) = startup_events drv bld.
Proof.
  unfold startup_events, hint_events. destruct (__APPLE__ bld); reflexivity.
Qed.

Lemma main_runs fuel k :
  glfwInit_ret drv <> 0 -> glfwCreateWindow_ret drv <> 0 ->
  glewInit_ret drv = GLEW_OK ->
  closes_at drv 0 k -> (k < fuel)%nat ->
  exists w,
    main drv bld fuel boot = Some (0, w) /\
    program_events (trace w) =
      (startup_events drv bld
       ++ resource_events drv 0
       ++ loop_events (glfwCreateWindow_ret drv) k
       ++ [E_glfwWindowShouldClose (glfwCreateWindow_ret drv)
             (glfwWindowShouldClose_ret drv k)]
       ++ teardown_events (resource_handles drv 0)
       ++ [E_glfwTerminate])%list.
Proof.
  intros Hi Hw He Hc Hf.
  rewrite (main_with_context fuel Hi Hw He).
  destruct context_up_world as (Ht0 & Hp0 & Hb0).
  set (w0 := context_up drv bld) in *.
  destruct (build_resources_events drv bld w0) as (Bh & Bt & Bp & Bb).
  rewrite Bh, Hb0.
  set (w1 := snd (build_resources drv bld w0)) in *.
  destruct (render_loop_exits drv bld k fuel (glfwCreateWindow_ret drv) w1)
    as (w2 & Hloop & Lt & Lp & Lb); [rewrite Bp, Hp0; exact Hc|exact Hf|].
  rewrite Hloop.
  destruct (teardown_events_of drv bld (resource_handles drv 0) w2)
    as (Tt & _).
  eexists. split; [reflexivity|].
  unfold glfwTerminate, foreign. cbn [snd trace].
  rewrite program_events_snoc by reflexivity.
  rewrite Tt, Lt, Bt, Ht0, Hb0, Bp, Hp0, startup_events_not_diagnostic.
  cbn [Nat.add]. rewrite <- !app_assoc. reflexivity.
Qed.

Lemma main_keeps_running fuel :
  glfwInit_ret drv <> 0 -> glfwCreateWindow_ret drv <> 0 ->
  glewInit_ret drv = GLEW_OK ->
  (forall j, (j < fuel)%nat -> glfwWindowShouldClose_ret drv j = 0) ->
  main drv bld fuel boot = None.
Proof.
  intros Hi Hw He Hrun.
  rewrite (main_with_context fuel Hi Hw He).
  destruct context_up_world as (Ht0 & Hp0 & Hb0).
  set (w0 := context_up drv bld) in *.
  destruct (build_resources_events drv bld w0) as (_ & _ & Bp & _).
  rewrite render_loop_keeps_running; [reflexivity|].
  intros j Hj. rewrite Bp, Hp0. now apply Hrun.
Qed.

End Main.

(** * The claims *)

(** C1.  [GlErrorToString] maps each of the six standard error codes to
    the code's own symbolic name, and every other code to
    ["Unknown GL error"]. *)
Theorem GlErrorToString_table :
  GlErrorToString GL_NO_ERROR = "GL_NO_ERROR" /\
  GlErrorToString GL_INVALID_ENUM = "GL_INVALID_ENUM" /\
  GlErrorToString GL_INVALID_VALUE = "GL_INVALID_VALUE" /\
  GlErrorToString GL_INVALID_OPERATION = "GL_INVALID_OPERATION" /\
  GlErrorToString GL_INVALID_FRAMEBUFFER_OPERATION
    = "GL_INVALID_FRAMEBUFFER_OPERATION" /\
  GlErrorToString GL_OUT_OF_MEMORY = "GL_OUT_OF_MEMORY" /\
  forall e,
    e <> GL_NO_ERROR -> e <> GL_INVALID_ENUM -> e <> GL_INVALID_VALUE ->
    e <> GL_INVALID_OPERATION -> e <> GL_INVALID_FRAMEBUFFER_OPERATION ->
    e <> GL_OUT_OF_MEMORY ->
    GlErrorToString e = "Unknown GL error".
Proof.
  repeat (split; [reflexivity|]).
  intros e H0 H1 H2 H3 H4 H5. unfold GlErrorToString.
  apply Z.eqb_neq in H0, H1, H2, H3, H4, H5.
  now rewrite H0, H1, H2, H3, H4, H5.
Qed.

(** [0x0503] is [GL_STACK_OVERFLOW], which the table does not list. *)
Lemma GlErrorToString_table_witness :
  GlErrorToString 0x0503 = "Unknown GL error".
Proof.
  destruct GlErrorToString_table as (_ & _ & _ & _ & _ & _ & H).
  apply H; discriminate.
Defined.

(** C5.  [PrintOpenGLErrors] fetches error codes until [glGetError]
    answers [GL_NO_ERROR]; for each code fetched it writes to [std::cerr]
    exactly one line ["OpenGL Error in <file> at line <line> calling
    <label>: <NAME> (0x<hex>)"], with [<NAME>] given by [GlErrorToString]
    and [<hex>] the code in hexadecimal; it always returns, and does
    nothing else: [std::cout] and the counters of the world are untouched.
    When no recorded flag is [GL_NO_ERROR] itself, every recorded flag is
    reported and none remains. *)
Theorem PrintOpenGLErrors_reports (Function File : string) (Line : Z)
    (w : World) :
  let codes := fetched (gl_errors w) in
  let line := fun e =>
    "OpenGL Error in " ++ File ++ " at line " ++ dec_of_int Line
      ++ " calling " ++ Function ++ ": " ++ GlErrorToString e
      ++ " (0x" ++ hex_of_uint e ++ ")" ++ newline in
  let w' := snd (PrintOpenGLErrors Function File Line w) in
  trace w' =
    (trace w
     ++ flat_map (fun e => [E_glGetError e; E_write Cerr (line e)]) codes
     ++ [E_glGetError GL_NO_ERROR])%list /\
  stream_text Cerr (trace w') =
    stream_text Cerr (trace w) ++ fold_right String.append "" (map line codes) /\
  stream_text Cout (trace w') = stream_text Cout (trace w) /\
  gl_errors w' = unfetched (gl_errors w) /\
  tick w' = tick w /\ polls w' = polls w /\ buffers w' = buffers w /\
  (Forall (fun e => e <> GL_NO_ERROR) (gl_errors w) ->
   codes = gl_errors w /\ gl_errors w' = []).
Proof.
  cbv zeta. rewrite PrintOpenGLErrors_run.
  cbn [snd trace gl_errors tick polls buffers].
  destruct (stream_text_drain Function File Line (gl_errors w)) as [He Ho].
  split; [reflexivity|]. split; [|split].
  - rewrite stream_text_app, He. reflexivity.
  - rewrite stream_text_app, Ho. apply append_nil_r.
  - repeat (split; [reflexivity|]). apply fetched_all.
Qed.

Lemma PrintOpenGLErrors_reports_witness :
  fetched [GL_INVALID_ENUM; GL_OUT_OF_MEMORY]
    = [GL_INVALID_ENUM; GL_OUT_OF_MEMORY] /\
  gl_errors
    (snd (PrintOpenGLErrors "glClear(GL_COLOR_BUFFER_BIT)" "main.cpp" 127
            (mkWorld [] [GL_INVALID_ENUM; GL_OUT_OF_MEMORY] 0 0 0))) = [].
Proof.
  apply (PrintOpenGLErrors_reports "glClear(GL_COLOR_BUFFER_BIT)" "main.cpp" 127
           (mkWorld [] [GL_INVALID_ENUM; GL_OUT_OF_MEMORY] 0 0 0)).
  repeat constructor; discriminate.
Defined.

(** The two lines of that run, as they reach [std::cerr]. *)
Example PrintOpenGLErrors_sample :
  stream_text Cerr
    (trace (snd (PrintOpenGLErrors "glClear(GL_COLOR_BUFFER_BIT)" "main.cpp"
                   127 (mkWorld [] [GL_INVALID_ENUM; GL_OUT_OF_MEMORY] 0 0 0))))
  = "OpenGL Error in main.cpp at line 127 calling glClear(GL_COLOR_BUFFER_BIT): GL_INVALID_ENUM (0x500)"
    ++ newline ++
    "OpenGL Error in main.cpp at line 127 calling glClear(GL_COLOR_BUFFER_BIT): GL_OUT_OF_MEMORY (0x505)"
    ++ newline.
Proof. rewrite PrintOpenGLErrors_run. reflexivity. Qed.

(** C4, as amended.  With [_DEBUG] defined, [CheckedGLCall(x)] runs the
    fetch loop immediately before [x], reporting under the label
    [">>BEFORE<< x"], and again immediately after [x], reporting under
    [x]: what it adds to the trace starts with a completed run of the
    loop.  [CheckedGLResult(x)] runs [x] first and the fetch loop only
    after it. *)
Theorem checked_calls_drain (bld : Build) {A} (text : string) (line : Z)
    (x : M A) (w : World) :
  _DEBUG bld = true ->
  let file := __FILE__ bld in
  let w1 := snd (PrintOpenGLErrors (">>BEFORE<< " ++ text) file line w) in
  let w2 := snd (x w1) in
  let w3 := snd (PrintOpenGLErrors text file line w2) in
  let v2 := snd (x w) in
  let v3 := snd (PrintOpenGLErrors text file line v2) in
  (CheckedGLCall bld text line x w = (fst (x w1), w3) /\
   trace w1 =
     (trace w
      ++ drain_events (">>BEFORE<< " ++ text) file line (gl_errors w))%list /\
   gl_errors w1 = unfetched (gl_errors w) /\
   (forall rest,
      starts_with_drain
        (drain_events (">>BEFORE<< " ++ text) file line (gl_errors w)
         ++ rest) = true) /\
   trace w3 = (trace w2 ++ drain_events text file line (gl_errors w2))%list /\
   gl_errors w3 = unfetched (gl_errors w2)) /\
  (CheckedGLResult bld text line x w = (fst (x w), v3) /\
   trace v3 = (trace v2 ++ drain_events text file line (gl_errors v2))%list /\
   gl_errors v3 = unfetched (gl_errors v2)).
Proof.
  intros Hd. cbv zeta. unfold CheckedGLCall, CheckedGLResult, bind, ret.
  rewrite Hd. rewrite !PrintOpenGLErrors_run. cbn [snd].
  split.
  - destruct (x _) as [r w2]. cbn [fst snd].
    rewrite !PrintOpenGLErrors_run. cbn [trace gl_errors].
    repeat (split; [reflexivity|]).
    split; [intro rest; apply drain_events_start|auto].
  - destruct (x w) as [r v2]. cbn [fst snd].
    rewrite !PrintOpenGLErrors_run. cbn [trace gl_errors]. auto.
Qed.

Lemma checked_calls_drain_witness :
  trace (snd (CheckedGLCall debug_build "glClear(GL_COLOR_BUFFER_BIT)" 127
                (glClear sample_driver GL_COLOR_BUFFER_BIT)
                (mkWorld [] [GL_INVALID_VALUE] 6 0 0)))
  = [E_glGetError GL_INVALID_VALUE;
     E_write Cerr
       ("OpenGL Error in main.cpp at line 127 calling >>BEFORE<< glClear(GL_COLOR_BUFFER_BIT): GL_INVALID_VALUE (0x501)"
        ++ newline);
     E_glGetError GL_NO_ERROR;
     E_glClear GL_COLOR_BUFFER_BIT;
     E_glGetError GL_INVALID_ENUM;
     E_write Cerr
       ("OpenGL Error in main.cpp at line 127 calling glClear(GL_COLOR_BUFFER_BIT): GL_INVALID_ENUM (0x500)"
        ++ newline);
     E_glGetError GL_NO_ERROR].
Proof.
  destruct (checked_calls_drain debug_build "glClear(GL_COLOR_BUFFER_BIT)" 127
              (glClear sample_driver GL_COLOR_BUFFER_BIT)
              (mkWorld [] [GL_INVALID_VALUE] 6 0 0) eq_refl)
    as [(Hcall & _ & _ & _ & Htrace & _) _].
  rewrite Hcall. cbn [snd]. rewrite Htrace.
  rewrite !PrintOpenGLErrors_run. reflexivity.
Defined.

(** C4 as stated fails.  The vertex shader's log is queried outside any
    checked call and the query records an error.  [CheckedGLResult] then
    runs [glCreateShader] with that error still recorded, and reports it
    afterwards as an error of [glCreateShader]; in [main] this happens at
    line 107. *)
Lemma CheckedGLResult_no_drain_before :
  let drv := bad_shader_driver in
  let w := snd (PrintShaderInfoLog drv 1 (mkWorld [] [] 20 0 0)) in
  let w' := snd (CheckedGLResult debug_build
                   "glCreateShader(GL_FRAGMENT_SHADER)" 107
                   (glCreateShader drv GL_FRAGMENT_SHADER) w) in
  let added := skipn (List.length (trace w)) (trace w') in
  let misreport :=
    [E_glCreateShader GL_FRAGMENT_SHADER 2;
     E_glGetError GL_INVALID_OPERATION;
     E_write Cerr
       ("OpenGL Error in main.cpp at line 107 calling glCreateShader(GL_FRAGMENT_SHADER): GL_INVALID_OPERATION (0x502)"
        ++ newline);
     E_glGetError GL_NO_ERROR] in
  gl_errors w = [GL_INVALID_OPERATION] /\
  added = misreport /\
  starts_with_drain added = false /\
  occurs_in
    (E_glGetShaderiv 1 GL_INFO_LOG_LENGTH (Some 6)
     :: E_glGetShaderInfoLog 1 6 "error"
     :: E_write Cout ("Shader Info Log:" ++ newline ++ "error"
                      ++ String nul "" ++ newline)
     :: misreport)
    (trace (snd (build_resources drv debug_build
                   (context_up drv debug_build)))).
Proof.
  cbv zeta. repeat split; try (vm_compute; reflexivity).
  set (t := trace _).
  exists (firstn 47 t), (skipn 54 t). vm_compute. reflexivity.
Qed.

(** C3.  Without [_DEBUG], [CheckedGLCall(x)] and [CheckedGLResult(x)]
    are [x] itself, for every [x]: same result, same world, whatever
    errors are recorded.  Each phase of [main] then adds to the trace its
    own calls and nothing else, no fetch of an error flag and no report
    among them. *)
Theorem release_wrappers_are_the_bare_call (drv : Driver) (bld : Build) :
  _DEBUG bld = false ->
  (forall A (text : string) (line : Z) (x : M A),
     CheckedGLCall bld text line x = x /\
     CheckedGLResult bld text line x = x) /\
  (forall w, trace (snd (build_resources drv bld w)) =
             (trace w ++ resource_events drv (buffers w))%list) /\
  (forall window w, trace (snd (render_frame drv bld window w)) =
                    (trace w ++ frame_events window)%list) /\
  (forall h w, trace (snd (teardown drv bld h w)) =
               (trace w ++ teardown_events h)%list) /\
  (forall b window h,
     program_events (resource_events drv b) = resource_events drv b /\
     program_events (frame_events window) = frame_events window /\
     program_events (teardown_events h) = teardown_events h).
Proof.
  intros Hd. split; [|split; [|split; [|split]]].
  - intros A text line x. unfold CheckedGLCall, CheckedGLResult.
    rewrite Hd. auto.
  - apply (release_phases drv bld Hd).
  - apply (release_phases drv bld Hd).
  - apply (release_phases drv bld Hd).
  - intros b window h. split; [apply resource_events_not_diagnostic|].
    split; reflexivity.
Qed.

Lemma release_wrappers_are_the_bare_call_witness :
  CheckedGLCall release_build "glClear(GL_COLOR_BUFFER_BIT)" 127
    (glClear sample_driver GL_COLOR_BUFFER_BIT)
  = glClear sample_driver GL_COLOR_BUFFER_BIT.
Proof.
  apply (release_wrappers_are_the_bare_call sample_driver release_build
           eq_refl).
Defined.

(** C2.  [main] returns [-1] when [glfwInit] fails, when no window is
    created, and when [glewInit] fails; in the last case [glfwTerminate]
    is the last thing it does.  When all three succeed and the window
    asks to close at some test of the loop condition, [main] returns
    [0]. *)
Theorem main_exit_codes (drv : Driver) (bld : Build) (fuel : nat) :
  (glfwInit_ret drv = 0 ->
   exists w, main drv bld fuel boot = Some (-1, w)) /\
  (glfwInit_ret drv <> 0 -> glfwCreateWindow_ret drv = 0 ->
   exists w, main drv bld fuel boot = Some (-1, w)) /\
  (glfwInit_ret drv <> 0 -> glfwCreateWindow_ret drv <> 0 ->
   glewInit_ret drv <> GLEW_OK ->
   exists w t,
     main drv bld fuel boot = Some (-1, w) /\
     trace w = (t ++ [E_glfwTerminate])%list /\
     ~ In E_glfwTerminate t) /\
  (glfwInit_ret drv <> 0 -> glfwCreateWindow_ret drv <> 0 ->
   glewInit_ret drv = GLEW_OK ->
   forall k, closes_at drv 0 k -> (k < fuel)%nat ->
   exists w, main drv bld fuel boot = Some (0, w)).
Proof.
  split; [|split; [|split]].
  - intros H. eexists. now apply main_without_glfw.
  - intros Hi Hw.
    destruct (main_without_window drv bld fuel Hi Hw) as (w & Hm & _).
    now exists w.
  - intros Hi Hw He.
    destruct (main_without_loader drv bld fuel Hi Hw He) as (w & Hm & Ht).
    exists w.
    exists (startup_events drv bld
            ++ [E_write Cerr "GLEW init error: ";
                E_glewGetErrorString (glewInit_ret drv)
                  (glewGetErrorString_ret drv (glewInit_ret drv));
                E_write Cerr (glewGetErrorString_ret drv (glewInit_ret drv)
                              ++ newline)])%list.
    split; [exact Hm|]. split.
    + rewrite Ht, <- app_assoc. reflexivity.
    + unfold startup_events, hint_events.
      destruct (__APPLE__ bld); simpl; intuition discriminate.
  - intros Hi Hw He k Hc Hf.
    destruct (main_runs drv bld fuel k Hi Hw He Hc Hf) as (w & Hm & _).
    now exists w.
Qed.

Lemma sample_driver_closes : closes_at sample_driver 0 2.
Proof.
  split; [|discriminate].
  intros [|[|j]] Hj; [reflexivity|reflexivity|lia].
Defined.

Lemma main_exit_codes_witness :
  (exists w, main no_glfw_driver debug_build 0 boot = Some (-1, w)) /\
  (exists w, main no_window_driver debug_build 0 boot = Some (-1, w)) /\
  (exists w t,
     main no_loader_driver debug_build 0 boot = Some (-1, w) /\
     trace w = (t ++ [E_glfwTerminate])%list /\ ~ In E_glfwTerminate t) /\
  (exists w, main sample_driver debug_build 3 boot = Some (0, w)).
Proof.
  split; [|split; [|split]].
  - apply (proj1 (main_exit_codes no_glfw_driver debug_build 0)).
    reflexivity.
  - apply (proj1 (proj2 (main_exit_codes no_window_driver debug_build 0)));
      [discriminate|reflexivity].
  - apply (proj1 (proj2 (proj2
             (main_exit_codes no_loader_driver debug_build 0))));
      discriminate.
  - apply (proj2 (proj2 (proj2 (main_exit_codes sample_driver debug_build 3))))
      with (k := 2%nat);
      [discriminate|discriminate|reflexivity|exact sample_driver_closes|lia].
Defined.

(** C10.  When [glfwInit] fails, [main] returns [-1] having made that one
    call: nothing is written and [glfwTerminate] is not called.  When the
    window cannot be created, and when [glewInit] fails, [glfwTerminate]
    is the last call before [main] returns [-1]; in the second case the
    message is written around the call of [glewGetErrorString], its fixed
    beginning before the call and the string that the call returns after
    it. *)
Theorem glfwInit_failure_skips_terminate (drv : Driver) (bld : Build)
    (fuel : nat) :
  (glfwInit_ret drv = 0 ->
   exists w,
     main drv bld fuel boot = Some (-1, w) /\ trace w = [E_glfwInit 0]) /\
  (glfwInit_ret drv <> 0 -> glfwCreateWindow_ret drv = 0 ->
   exists w,
     main drv bld fuel boot = Some (-1, w) /\
     trace w =
       (E_glfwInit (glfwInit_ret drv) :: hint_events bld
        ++ [E_glfwCreateWindow 640 480 "Hello World" 0 0 0;
            E_glfwTerminate])%list) /\
  (glfwInit_ret drv <> 0 -> glfwCreateWindow_ret drv <> 0 ->
   glewInit_ret drv <> GLEW_OK ->
   exists w,
     main drv bld fuel boot = Some (-1, w) /\
     trace w =
       (startup_events drv bld
        ++ [E_write Cerr "GLEW init error: ";
            E_glewGetErrorString (glewInit_ret drv)
              (glewGetErrorString_ret drv (glewInit_ret drv));
            E_write Cerr (glewGetErrorString_ret drv (glewInit_ret drv)
                          ++ newline);
            E_glfwTerminate])%list).
Proof.
  split; [|split].
  - intros H. eexists. split; [now apply main_without_glfw|reflexivity].
  - apply main_without_window.
  - apply main_without_loader.
Qed.

Lemma glfwInit_failure_skips_terminate_witness :
  (exists w,
     main no_glfw_driver release_build 0 boot = Some (-1, w) /\
     trace w = [E_glfwInit 0]) /\
  (exists w,
     main no_window_driver release_build 0 boot = Some (-1, w) /\
     trace w =
       [E_glfwInit 1;
        E_glfwWindowHint GLFW_CONTEXT_VERSION_MAJOR 3;
        E_glfwWindowHint GLFW_CONTEXT_VERSION_MINOR 3;
        E_glfwWindowHint GLFW_OPENGL_PROFILE GLFW_OPENGL_CORE_PROFILE;
        E_glfwCreateWindow 640 480 "Hello World" 0 0 0;
        E_glfwTerminate]) /\
  (exists w,
     main no_loader_driver release_build 0 boot = Some (-1, w) /\
     trace w =
       [E_glfwInit 1;
        E_glfwWindowHint GLFW_CONTEXT_VERSION_MAJOR 3;
        E_glfwWindowHint GLFW_CONTEXT_VERSION_MINOR 3;
        E_glfwWindowHint GLFW_OPENGL_PROFILE GLFW_OPENGL_CORE_PROFILE;
        E_glfwCreateWindow 640 480 "Hello World" 0 0 4096;
        E_glfwMakeContextCurrent 4096;
        E_glewExperimental GL_TRUE;
        E_glewInit 1;
        E_write Cerr "GLEW init error: ";
        E_glewGetErrorString 1 "Missing GL version";
        E_write Cerr ("Missing GL version" ++ newline);
        E_glfwTerminate]).
Proof.
  split; [|split].
  - apply (proj1 (glfwInit_failure_skips_terminate
                    no_glfw_driver release_build 0)).
    reflexivity.
  - apply (proj1 (proj2 (glfwInit_failure_skips_terminate
                           no_window_driver release_build 0)));
      [discriminate|reflexivity].
  - apply (proj2 (proj2 (glfwInit_failure_skips_terminate
                           no_loader_driver release_build 0)));
      discriminate.
Defined.

(** C7.  Each turn of the render loop clears the colour buffer, draws 3
    indices as triangles with the unsigned 32-bit index type from offset 0
    of the index buffer, swaps the buffers and polls the events, in this
    order.  The loop runs while the window answers [0] to the test of its
    condition, and exits at the first other answer: it exits if and only if
    the window asks to close. *)
Theorem render_loop_protocol (drv : Driver) (bld : Build) (window : Z)
    (w : World) :
  program_events (trace (snd (render_frame drv bld window w))) =
    (program_events (trace w)
     ++ [E_glClear GL_COLOR_BUFFER_BIT;
         E_glDrawElements GL_TRIANGLES 3 GL_UNSIGNED_INT 0;
         E_glfwSwapBuffers window;
         E_glfwPollEvents])%list /\
  (forall fuel k,
     closes_at drv (polls w) k -> (k < fuel)%nat ->
     exists w',
       render_loop drv bld fuel window w = Some w' /\
       program_events (trace w') =
         (program_events (trace w)
          ++ List.concat
               (repeat [E_glfwWindowShouldClose window 0;
                        E_glClear GL_COLOR_BUFFER_BIT;
                        E_glDrawElements GL_TRIANGLES 3 GL_UNSIGNED_INT 0;
                        E_glfwSwapBuffers window;
                        E_glfwPollEvents] k)
          ++ [E_glfwWindowShouldClose window
                (glfwWindowShouldClose_ret drv (polls w + k))])%list) /\
  (forall fuel,
     (forall j, (j < fuel)%nat ->
                glfwWindowShouldClose_ret drv (polls w + j) = 0) ->
     render_loop drv bld fuel window w = None) /\
  (forall fuel w',
     render_loop drv bld fuel window w = Some w' ->
     exists k, (k < fuel)%nat /\ closes_at drv (polls w) k).
Proof.
  split; [|split; [|split]].
  - apply render_frame_events.
  - intros fuel k Hc Hf.
    destruct (render_loop_exits drv bld k fuel window w Hc Hf)
      as (w' & Hrun & Ht & _).
    exists w'. split; [exact Hrun|exact Ht].
  - intros fuel. apply render_loop_keeps_running.
  - intros fuel w'. apply render_loop_exit_only_on_close.
Qed.

Lemma render_loop_protocol_witness :
  (exists w',
     render_loop sample_driver debug_build 3 4096 boot = Some w' /\
     program_events (trace w') =
       [E_glfwWindowShouldClose 4096 0;
        E_glClear GL_COLOR_BUFFER_BIT;
        E_glDrawElements GL_TRIANGLES 3 GL_UNSIGNED_INT 0;
        E_glfwSwapBuffers 4096;
        E_glfwPollEvents;
        E_glfwWindowShouldClose 4096 0;
        E_glClear GL_COLOR_BUFFER_BIT;
        E_glDrawElements GL_TRIANGLES 3 GL_UNSIGNED_INT 0;
        E_glfwSwapBuffers 4096;
        E_glfwPollEvents;
        E_glfwWindowShouldClose 4096 1]) /\
  render_loop sample_driver debug_build 2 4096 boot = None /\
  (exists k, (k < 3)%nat /\ closes_at sample_driver 0 k).
Proof.
  destruct (render_loop_protocol sample_driver debug_build 4096 boot)
    as (_ & Hexit & Hrun & Honly).
  split; [|split].
  - apply (Hexit 3%nat 2%nat); [exact sample_driver_closes|lia].
  - apply (Hrun 2%nat). intros [|[|j]] Hj; [reflexivity|reflexivity|lia].
  - destruct (render_loop sample_driver debug_build 3 4096 boot) as [w'|] eqn:E.
    + apply (Honly 3%nat w'). exact E.
    + vm_compute in E. discriminate E.
Defined.

(** C8.  Teardown deletes the program, the fragment shader, the vertex
    shader, the index buffer, the vertex buffer and the vertex array, in
    this order.  In [main] these deletions follow the test of the loop
    condition that ends the loop, they delete the handles that were
    created, [glfwTerminate] follows them, and [main] returns [0]. *)
Theorem teardown_order (drv : Driver) (bld : Build) :
  (forall h w,
     program_events (trace (snd (teardown drv bld h w))) =
       (program_events (trace w)
        ++ [E_glDeleteProgram (prog h);
            E_glDeleteShader (fs h);
            E_glDeleteShader (vs h);
            E_glDeleteBuffers 1 (EBO h);
            E_glDeleteBuffers 1 (VBO h);
            E_glDeleteVertexArrays 1 (VAO h)])%list) /\
  (forall fuel k,
     glfwInit_ret drv <> 0 -> glfwCreateWindow_ret drv <> 0 ->
     glewInit_ret drv = GLEW_OK ->
     closes_at drv 0 k -> (k < fuel)%nat ->
     exists w,
       main drv bld fuel boot = Some (0, w) /\
       program_events (trace w) =
         (startup_events drv bld
          ++ resource_events drv 0
          ++ loop_events (glfwCreateWindow_ret drv) k
          ++ [E_glfwWindowShouldClose (glfwCreateWindow_ret drv)
                (glfwWindowShouldClose_ret drv k);
              E_glDeleteProgram (glCreateProgram_ret drv);
              E_glDeleteShader (glCreateShader_ret drv GL_FRAGMENT_SHADER);
              E_glDeleteShader (glCreateShader_ret drv GL_VERTEX_SHADER);
              E_glDeleteBuffers 1 (glGenBuffers_out drv 1);
              E_glDeleteBuffers 1 (glGenBuffers_out drv 0);
              E_glDeleteVertexArrays 1 (glGenVertexArrays_out drv);
              E_glfwTerminate])%list /\
       incl [E_glGenVertexArrays 1 (glGenVertexArrays_out drv);
             E_glGenBuffers 1 (glGenBuffers_out drv 0);
             E_glGenBuffers 1 (glGenBuffers_out drv 1);
             E_glCreateShader GL_VERTEX_SHADER
               (glCreateShader_ret drv GL_VERTEX_SHADER);
             E_glCreateShader GL_FRAGMENT_SHADER
               (glCreateShader_ret drv GL_FRAGMENT_SHADER);
             E_glCreateProgram (glCreateProgram_ret drv)]
            (resource_events drv 0)).
Proof.
  split.
  - intros h w. apply teardown_events_of.
  - intros fuel k Hi Hw He Hc Hf.
    destruct (main_runs drv bld fuel k Hi Hw He Hc Hf) as (w & Hm & Ht).
    exists w. split; [exact Hm|]. split; [exact Ht|].
    unfold resource_events, upload_events, compile_events, link_events,
      resource_handles.
    cbn [VAO VBO EBO vs fs prog].
    intros e He'. rewrite !in_app_iff. simpl in He'. simpl.
    intuition (subst; auto 20).
Qed.

Lemma teardown_order_witness :
  exists w,
    main sample_driver debug_build 3 boot = Some (0, w) /\
    program_events (trace w) =
      (startup_events sample_driver debug_build
       ++ resource_events sample_driver 0
       ++ loop_events 4096 2
       ++ [E_glfwWindowShouldClose 4096 1;
           E_glDeleteProgram 3;
           E_glDeleteShader 2;
           E_glDeleteShader 1;
           E_glDeleteBuffers 1 2;
           E_glDeleteBuffers 1 1;
           E_glDeleteVertexArrays 1 1;
           E_glfwTerminate])%list.
Proof.
  destruct (proj2 (teardown_order sample_driver debug_build) 3%nat 2%nat)
    as (w & Hm & Ht & _);
    [discriminate|discriminate|reflexivity|exact sample_driver_closes|lia|].
  exists w. split; [exact Hm|exact Ht].
Defined.


(** ** Shader diagnostics *)

Lemma skipn_length_app {A} (l1 l2 : list A) :
  skipn (List.length l1) (l1 ++ l2) = l2.
Proof. induction l1 as [|a l1 IH]; simpl; [reflexivity|exact IH]. Qed.

Lemma PrintShaderInfoLog_trace drv Shader w :
  trace (snd (PrintShaderInfoLog drv Shader w)) =
  (trace w ++ info_log_events drv Shader)%list.
Proof.
  unfold PrintShaderInfoLog, info_log_events, glGetShaderiv,
    glGetShaderInfoLog, write, emit, foreign, bind, ret.
  cbn [fst snd trace].
  destruct (glGetShaderiv_out drv (to_GLuint Shader) GL_INFO_LOG_LENGTH)
    as [v|]; [destruct (v >? 1)|]; cbn [fst snd trace];
    rewrite <- ?app_assoc; reflexivity.
Qed.

Lemma PrintShaderInfoLog_added drv Shader w :
  skipn (List.length (trace w)) (trace (snd (PrintShaderInfoLog drv Shader w)))
  = info_log_events drv Shader.
Proof. rewrite PrintShaderInfoLog_trace. apply skipn_length_app. Qed.

Lemma failure_message_origin drv b text :
  In (E_write Cerr text) (resource_events drv b) ->
  (text = "Vertex shader failed" ++ newline /\
   compiled_after drv GL_VERTEX_SHADER 0 = 0) \/
  (text = "Fragment shader failed" ++ newline /\
   compiled_after drv GL_FRAGMENT_SHADER
     (compiled_after drv GL_VERTEX_SHADER 0) = 0).
Proof.
  unfold resource_events, compile_events, info_log_events.
  rewrite !in_app_iff.
  intros [H|[[H|H]|[[H|H]|H]]].
  - simpl in H. intuition discriminate.
  - simpl in H. intuition discriminate.
  - destruct (compiled_after drv GL_VERTEX_SHADER 0 =? 0) eqn:E; [|destruct H].
    apply Z.eqb_eq in E. left. split; [|exact E].
    destruct H as [H|[H|H]]; [now inversion H|discriminate|].
    destruct (_ >? 1); simpl in H; intuition discriminate.
  - simpl in H. intuition discriminate.
  - destruct (compiled_after drv GL_FRAGMENT_SHADER _ =? 0) eqn:E;
      [|destruct H].
    apply Z.eqb_eq in E. right. split; [|exact E].
    destruct H as [H|[H|H]]; [now inversion H|discriminate|].
    destruct (_ >? 1); simpl in H; intuition discriminate.
  - simpl in H. intuition discriminate.
Qed.

Lemma length_nuls n : String.length (nuls n) = n.
Proof. induction n as [|n IH]; simpl; [reflexivity|now rewrite IH]. Qed.

Lemma substring_nuls n : forall k m,
  (k + m <= n)%nat -> substring k m (nuls n) = nuls m.
Proof.
  induction n as [|n IH]; intros k m H.
  - assert (k = 0%nat) by lia. assert (m = 0%nat) by lia. subst. reflexivity.
  - destruct k as [|k]; simpl.
    + destruct m as [|m]; [reflexivity|]. rewrite IH by lia. reflexivity.
    + apply IH. lia.
Qed.

Lemma length_substring_le s : forall m,
  (String.length (substring 0 m s) <= m)%nat.
Proof.
  induction s as [|a s IH]; intros [|m]; simpl; try lia.
  specialize (IH m). lia.
Qed.

Lemma length_append (s1 s2 : string) :
  String.length (s1 ++ s2) = (String.length s1 + String.length s2)%nat.
Proof. induction s1 as [|a s1 IH]; simpl; [reflexivity|now rewrite IH]. Qed.

(** The text that [PrintShaderInfoLog] writes under its heading is the
    log, cut to the queried length less one, followed by the NUL characters
    that fill the rest of the buffer. *)
Lemma info_log_text (len : Z) (text : string) :
  1 < len ->
  let copied := substring 0 (Z.to_nat len - 1) text in
  store_chars (nuls (Z.to_nat len)) (copied ++ String nul "") =
  copied ++ nuls (Z.to_nat len - String.length copied).
Proof.
  intros Hl copied. unfold store_chars.
  pose proof (length_substring_le text (Z.to_nat len - 1)) as Hc.
  fold copied in Hc.
  rewrite length_nuls, length_append. cbn [String.length].
  rewrite substring_nuls by lia. rewrite append_assoc. f_equal.
  replace (Z.to_nat len - String.length copied)%nat
    with (S (Z.to_nat len - (String.length copied + 1)))%nat by lia.
  reflexivity.
Qed.

(** C6.  When the status query of a shader stores [GL_FALSE], [main]
    writes ["Vertex shader failed"] (or ["Fragment shader failed"]) to
    [std::cerr], runs [PrintShaderInfoLog] on that shader, and goes on to
    its next statement: the failure does not end the run.  When the query
    stores another value, that message is not written.
    [PrintShaderInfoLog] queries the length of the log and writes the log
    (cut to that length less one, and followed by the NUL characters that
    fill the rest of its buffer) under the heading ["Shader Info Log:"]
    exactly when that length exceeds 1.  Whatever the status of the shaders, [main] reaches the
    render loop and returns [0] once the window asks to close. *)
Theorem shader_compile_failure_is_reported (drv : Driver) (bld : Build)
    (w : World) :
  let vs := glCreateShader_ret drv GL_VERTEX_SHADER in
  let fs := glCreateShader_ret drv GL_FRAGMENT_SHADER in
  let status := fun shader => glGetShaderiv_out drv shader GL_COMPILE_STATUS in
  let printed := fun Shader w0 =>
    skipn (List.length (trace w0))
          (trace (snd (PrintShaderInfoLog drv Shader w0))) in
  (exists added,
     program_events (trace (snd (build_resources drv bld w))) =
       (program_events (trace w) ++ added)%list /\
     (status vs = Some 0 ->
      occurs_in
        ([E_glGetShaderiv vs GL_COMPILE_STATUS (Some 0);
          E_write Cerr ("Vertex shader failed" ++ newline)]
         ++ printed (to_GLint vs) w
         ++ [E_glCreateShader GL_FRAGMENT_SHADER fs]) added) /\
     (forall v, status vs = Some v -> v <> 0 ->
      ~ In (E_write Cerr ("Vertex shader failed" ++ newline)) added) /\
     (status fs = Some 0 ->
      occurs_in
        ([E_glGetShaderiv fs GL_COMPILE_STATUS (Some 0);
          E_write Cerr ("Fragment shader failed" ++ newline)]
         ++ printed (to_GLint fs) w
         ++ [E_glCreateProgram (glCreateProgram_ret drv)]) added) /\
     (forall v, status fs = Some v -> v <> 0 ->
      ~ In (E_write Cerr ("Fragment shader failed" ++ newline)) added)) /\
  (forall Shader w0,
     let sh := to_GLuint Shader in
     let out := glGetShaderiv_out drv sh GL_INFO_LOG_LENGTH in
     let len := match out with Some v => v | None => 0 end in
     let copied := substring 0 (Z.to_nat len - 1)
                             (glGetShaderInfoLog_out drv sh) in
     let log := copied ++ nuls (Z.to_nat len - String.length copied) in
     printed Shader w0 = printed Shader w /\
     (1 < len ->
      printed Shader w0 =
        [E_glGetShaderiv sh GL_INFO_LOG_LENGTH out;
         E_glGetShaderInfoLog sh len copied;
         E_write Cout ("Shader Info Log:" ++ newline ++ log ++ newline)]) /\
     (len <= 1 ->
      printed Shader w0 = [E_glGetShaderiv sh GL_INFO_LOG_LENGTH out])) /\
  (forall fuel k,
     glfwInit_ret drv <> 0 -> glfwCreateWindow_ret drv <> 0 ->
     glewInit_ret drv = GLEW_OK ->
     closes_at drv 0 k -> (k < fuel)%nat ->
     exists w', main drv bld fuel boot = Some (0, w')).
Proof.
  cbv zeta. split; [|split];
    [| |intros fuel k Hi Hw He Hc Hf;
        destruct (main_runs drv bld fuel k Hi Hw He Hc Hf) as (w' & Hm & _);
        now exists w'].
  - exists (resource_events drv (buffers w)).
    split; [apply build_resources_events|].
    rewrite !PrintShaderInfoLog_added.
    split; [|split; [|split]].
    + intros Hs.
      exists (upload_events (resource_handles drv (buffers w))
              ++ [E_glCreateShader GL_VERTEX_SHADER
                    (glCreateShader_ret drv GL_VERTEX_SHADER);
                  E_glShaderSource (glCreateShader_ret drv GL_VERTEX_SHADER)
                                   1 VertexShaderSource 0;
                  E_glCompileShader (glCreateShader_ret drv GL_VERTEX_SHADER)])%list.
      exists (tl (compile_events drv GL_FRAGMENT_SHADER FragmentShaderSource
                                 "Fragment shader failed"
                                 (compiled_after drv GL_VERTEX_SHADER 0))
              ++ link_events drv (resource_handles drv (buffers w)))%list.
      unfold resource_events, compile_events, compiled_after.
      rewrite Hs. rewrite <- ?app_assoc. reflexivity.
    + intros v Hs Hv Hin.
      apply failure_message_origin in Hin.
      destruct Hin as [[_ H]|[H _]]; [|discriminate H].
      unfold compiled_after in H. rewrite Hs in H. contradiction.
    + intros Hs.
      exists (upload_events (resource_handles drv (buffers w))
              ++ compile_events drv GL_VERTEX_SHADER VertexShaderSource
                                "Vertex shader failed" 0
              ++ [E_glCreateShader GL_FRAGMENT_SHADER
                    (glCreateShader_ret drv GL_FRAGMENT_SHADER);
                  E_glShaderSource (glCreateShader_ret drv GL_FRAGMENT_SHADER)
                                   1 FragmentShaderSource 0;
                  E_glCompileShader
                    (glCreateShader_ret drv GL_FRAGMENT_SHADER)])%list.
      exists (tl (link_events drv (resource_handles drv (buffers w)))).
      assert (Hc : forall c, compiled_after drv GL_FRAGMENT_SHADER c = 0)
        by (intro; unfold compiled_after; now rewrite Hs).
      unfold resource_events, compile_events at 2.
      rewrite Hc, Hs. rewrite <- ?app_assoc. reflexivity.
    + intros v Hs Hv Hin.
      apply failure_message_origin in Hin.
      destruct Hin as [[H _]|[_ H]]; [discriminate H|].
      unfold compiled_after at 1 in H. rewrite Hs in H. contradiction.
  - intros Shader w0. rewrite !PrintShaderInfoLog_added.
    split; [reflexivity|]. unfold info_log_events. split; intros Hl.
    + rewrite info_log_text by exact Hl.
      apply Z.gtb_lt in Hl. rewrite Hl. reflexivity.
    + destruct (_ >? 1) eqn:Hg; [|reflexivity].
      apply Z.gtb_lt in Hg. lia.
Qed.

Lemma shader_compile_failure_is_reported_witness :
  (exists added,
     program_events (trace (snd (build_resources bad_shader_driver
                                   debug_build boot))) = added /\
     occurs_in
       [E_glGetShaderiv 1 GL_COMPILE_STATUS (Some 0);
        E_write Cerr ("Vertex shader failed" ++ newline);
        E_glGetShaderiv 1 GL_INFO_LOG_LENGTH (Some 6);
        E_glGetShaderInfoLog 1 6 "error";
        E_write Cout ("Shader Info Log:" ++ newline ++ "error"
                      ++ String nul "" ++ newline);
        E_glCreateShader GL_FRAGMENT_SHADER 2] added /\
     occurs_in
       [E_glGetShaderiv 2 GL_COMPILE_STATUS (Some 0);
        E_write Cerr ("Fragment shader failed" ++ newline);
        E_glGetShaderiv 2 GL_INFO_LOG_LENGTH (Some 1);
        E_glCreateProgram 3] added) /\
  (exists added,
     program_events (trace (snd (build_resources sample_driver
                                   debug_build boot))) = added /\
     ~ In (E_write Cerr ("Vertex shader failed" ++ newline)) added /\
     ~ In (E_write Cerr ("Fragment shader failed" ++ newline)) added) /\
  trace (snd (PrintShaderInfoLog bad_shader_driver 1 boot)) =
    [E_glGetShaderiv 1 GL_INFO_LOG_LENGTH (Some 6);
     E_glGetShaderInfoLog 1 6 "error";
     E_write Cout ("Shader Info Log:" ++ newline ++ "error"
                   ++ String nul "" ++ newline)] /\
  trace (snd (PrintShaderInfoLog bad_shader_driver 2 boot)) =
    [E_glGetShaderiv 2 GL_INFO_LOG_LENGTH (Some 1)] /\
  (exists w, main bad_shader_driver debug_build 3 boot = Some (0, w)).
Proof.
  split; [|split; [|split; [|split]]].
  - destruct (shader_compile_failure_is_reported bad_shader_driver
                debug_build boot)
      as [(added & Ht & Hv & _ & Hf & _) _].
    exists added. split; [exact Ht|]. split.
    + apply Hv. reflexivity.
    + apply Hf. reflexivity.
  - destruct (shader_compile_failure_is_reported sample_driver
                debug_build boot)
      as [(added & Ht & _ & Hv & _ & Hf) _].
    exists added. split; [exact Ht|]. split.
    + apply (Hv 1); [reflexivity|discriminate].
    + apply (Hf 1); [reflexivity|discriminate].
  - apply (proj1 (proj2 (shader_compile_failure_is_reported
                           bad_shader_driver debug_build boot)) 1 boot).
    reflexivity.
  - apply (proj1 (proj2 (shader_compile_failure_is_reported
                           bad_shader_driver debug_build boot)) 2 boot).
    discriminate.
  - apply (proj2 (proj2 (shader_compile_failure_is_reported
                           bad_shader_driver debug_build boot)) 3%nat 2%nat);
      [discriminate|discriminate|reflexivity|exact sample_driver_closes|lia].
Defined.

(** * Further properties of the program *)

(** ** Invariants of the phases of [main]

    An invariant that survives one recorded call and, where [_DEBUG] is
    defined, one run of the fetch loop, survives every phase. *)

Section Invariant.

Variable drv : Driver.
Variable bld : Build.
Variable I : World -> Prop.

Hypothesis I_call : forall e w n t p b,
  is_diagnostic e = false -> I w ->
  I (mkWorld (trace w ++ [e]) (gl_errors w ++ gl_faults drv n) t p b).
Hypothesis I_emit : forall e w,
  is_diagnostic e = false -> I w ->
  I (mkWorld (trace w ++ [e]) (gl_errors w) (tick w) (polls w) (buffers w)).
Hypothesis I_drain : _DEBUG bld = true ->
  forall Function File Line w,
    I w -> I (snd (PrintOpenGLErrors Function File Line w)).

Lemma hoare_bind {A B} (P : World -> Prop) (R : A -> World -> Prop)
    (Q : B -> World -> Prop) (m : M A) (k : A -> M B) :
  hoare P m R -> (forall a, hoare (R a) (k a) Q) -> hoare P (bind m k) Q.
Proof.
  intros Hm Hk w Hw. unfold bind. specialize (Hm w Hw).
  destruct (m w) as [a w1]. apply Hk, Hm.
Qed.

Lemma keeps_ret {A} (a : A) : keeps I (ret a).
Proof. intros w Hw. exact Hw. Qed.

Lemma keeps_bind {A B} (m : M A) (k : A -> M B) :
  keeps I m -> (forall a, keeps I (k a)) -> keeps I (bind m k).
Proof. intros Hm Hk. apply hoare_bind with (R := fun _ => I); auto. Qed.

Lemma keeps_if {A} (c : bool) (m1 m2 : M A) :
  keeps I m1 -> keeps I m2 -> keeps I (if c then m1 else m2).
Proof. destruct c; auto. Qed.

Lemma keeps_emit e : is_diagnostic e = false -> keeps I (emit e).
Proof. intros He w Hw. now apply I_emit. Qed.

Lemma keeps_foreign e : is_diagnostic e = false -> keeps I (foreign drv e).
Proof. intros He w Hw. now apply I_call. Qed.

Lemma keeps_glGenBuffers n : keeps I (glGenBuffers drv n).
Proof. intros w Hw. now apply I_call. Qed.

Lemma keeps_glfwWindowShouldClose window :
  keeps I (glfwWindowShouldClose drv window).
Proof. intros w Hw. now apply I_call. Qed.

Lemma keeps_PrintOpenGLErrors Function File Line :
  _DEBUG bld = true -> keeps I (PrintOpenGLErrors Function File Line).
Proof. intros Hd w Hw. now apply I_drain. Qed.

Lemma keeps_CheckedGLCall {A} text line (x : M A) :
  keeps I x -> keeps I (CheckedGLCall bld text line x).
Proof.
  intros Hx. unfold CheckedGLCall.
  destruct (Bool.bool_dec (_DEBUG bld) true) as [Hd|Hd];
    [rewrite Hd|apply not_true_is_false in Hd; rewrite Hd; exact Hx].
  repeat (apply keeps_bind; [|intro]);
    auto using keeps_PrintOpenGLErrors, keeps_ret.
Qed.

Lemma keeps_CheckedGLResult {A} text line (x : M A) :
  keeps I x -> keeps I (CheckedGLResult bld text line x).
Proof.
  intros Hx. unfold CheckedGLResult.
  destruct (Bool.bool_dec (_DEBUG bld) true) as [Hd|Hd];
    [rewrite Hd|apply not_true_is_false in Hd; rewrite Hd; exact Hx].
  repeat (apply keeps_bind; [|intro]);
    auto using keeps_PrintOpenGLErrors, keeps_ret.
Qed.

Ltac keeps_step :=
  first
    [ apply keeps_bind; [|intro]
    | apply keeps_CheckedGLCall
    | apply keeps_CheckedGLResult
    | apply keeps_if
    | apply keeps_ret
    | apply keeps_emit; reflexivity
    | apply keeps_foreign; reflexivity
    | apply keeps_glGenBuffers
    | apply keeps_glfwWindowShouldClose ].

Lemma keeps_PrintShaderInfoLog Shader : keeps I (PrintShaderInfoLog drv Shader).
Proof.
  unfold PrintShaderInfoLog, glGetShaderiv, glGetShaderInfoLog, write.
  repeat keeps_step.
Qed.

Lemma keeps_build_resources : keeps I (build_resources drv bld).
Proof.
  unfold build_resources, glGenVertexArrays, glBindVertexArray, glBindBuffer,
    glBufferData, glCreateShader, glShaderSource, glCompileShader,
    glGetShaderiv, glCreateProgram, glAttachShader, glBindFragDataLocation,
    glLinkProgram, glUseProgram, glGetAttribLocation,
    glEnableVertexAttribArray, glVertexAttribPointer, write.
  repeat first [ apply keeps_PrintShaderInfoLog | keeps_step ].
Qed.

Lemma keeps_render_frame window : keeps I (render_frame drv bld window).
Proof.
  unfold render_frame, glClear, glDrawElements, glfwSwapBuffers,
    glfwPollEvents.
  repeat keeps_step.
Qed.

Lemma keeps_teardown h : keeps I (teardown drv bld h).
Proof.
  unfold teardown, glDeleteProgram, glDeleteShader, glDeleteBuffers,
    glDeleteVertexArrays.
  repeat keeps_step.
Qed.

Lemma render_loop_keeps fuel : forall window w w',
  I w -> render_loop drv bld fuel window w = Some w' -> I w'.
Proof.
  induction fuel as [|fuel IH]; intros window w w' Hw H; [discriminate|].
  cbn [render_loop] in H.
  pose proof (keeps_glfwWindowShouldClose window w Hw) as H1.
  destruct (glfwWindowShouldClose drv window w) as [close w1].
  cbn [snd] in H1. destruct (close =? 0).
  - eapply IH; [|exact H]. now apply keeps_render_frame.
  - now inversion H; subst.
Qed.

End Invariant.

(** ** Runs of [main] that return *)

Section Returns.

Variable drv : Driver.
Variable bld : Build.

(** A run that gets past start-up returns [0], in a world reached from
    [context_up] by the three remaining phases and [glfwTerminate]. *)
Lemma main_past_startup (I : World -> Prop) fuel r w :
  (forall e w n t p b, is_diagnostic e = false -> I w ->
     I (mkWorld (trace w ++ [e]) (gl_errors w ++ gl_faults drv n) t p b)) ->
  (forall e w, is_diagnostic e = false -> I w ->
     I (mkWorld (trace w ++ [e]) (gl_errors w) (tick w) (polls w)
                (buffers w))) ->
  (_DEBUG bld = true -> forall Function File Line w,
     I w -> I (snd (PrintOpenGLErrors Function File Line w))) ->
  glfwInit_ret drv <> 0 -> glfwCreateWindow_ret drv <> 0 ->
  glewInit_ret drv = GLEW_OK ->
  I (context_up drv bld) ->
  main drv bld fuel boot = Some (r, w) ->
  r = 0 /\
  exists w3, I w3 /\ snd (glfwTerminate drv w3) = w /\
             exists k, (k < fuel)%nat /\ closes_at drv 0 k.
Proof.
  intros Hcall Hemit Hdrain Hi Hw He H0 Hm.
  rewrite (main_with_context drv bld fuel Hi Hw He) in Hm.
  destruct (render_loop drv bld fuel _ _) as [w2|] eqn:Hloop; [|discriminate].
  inversion Hm; subst; clear Hm. split; [reflexivity|].
  eexists. split; [|split; [reflexivity|]].
  - apply (keeps_teardown drv bld I Hcall Hdrain).
    apply (render_loop_keeps drv bld I Hcall Hdrain _ _ _ _
             (keeps_build_resources drv bld I Hcall Hemit Hdrain _ H0) Hloop).
  - destruct (render_loop_exit_only_on_close drv bld _ _ _ _ Hloop)
      as (k & Hk & Hc).
    destruct (build_resources_events drv bld (context_up drv bld))
      as (_ & _ & Bp & _).
    destruct (context_up_world drv bld) as (_ & Hp0 & _).
    rewrite Bp, Hp0 in Hc. now exists k.
Qed.

(** The three ways in which a run returns during start-up. *)
Lemma main_startup_failure fuel :
  glfwInit_ret drv = 0 \/ glfwCreateWindow_ret drv = 0 \/
  glewInit_ret drv <> GLEW_OK ->
  exists w,
    main drv bld fuel boot = Some (-1, w) /\
    Forall (fun e => is_gl_call e = false) (trace w) /\
    ((glfwInit_ret drv = 0 /\ ~ In E_glfwTerminate (trace w)) \/
     (glfwInit_ret drv <> 0 /\
      exists t, trace w = (t ++ [E_glfwTerminate])%list /\
                ~ In E_glfwTerminate t)).
Proof.
  intros H.
  destruct (Z.eq_dec (glfwInit_ret drv) 0) as [Hi|Hi].
  { eexists. split; [now apply main_without_glfw|]. cbn [trace].
    split; [repeat constructor|].
    left. split; [exact Hi|]. simpl. intuition discriminate. }
  destruct (Z.eq_dec (glfwCreateWindow_ret drv) 0) as [Hw|Hw].
  { destruct (main_without_window drv bld fuel Hi Hw) as (w & Hm & Ht).
    exists w. split; [exact Hm|]. rewrite Ht. unfold hint_events.
    split; [destruct (__APPLE__ bld); repeat constructor|].
    right. split; [exact Hi|].
    exists (E_glfwInit (glfwInit_ret drv) :: hint_events bld
            ++ [E_glfwCreateWindow 640 480 "Hello World" 0 0 0])%list.
    unfold hint_events. split.
    - destruct (__APPLE__ bld); reflexivity.
    - destruct (__APPLE__ bld); simpl; intuition discriminate. }
  assert (He : glewInit_ret drv <> GLEW_OK) by tauto.
  destruct (main_without_loader drv bld fuel Hi Hw He) as (w & Hm & Ht).
  exists w. split; [exact Hm|]. rewrite Ht.
  unfold startup_events, hint_events.
  split; [destruct (__APPLE__ bld); repeat constructor|].
  right. split; [exact Hi|].
  exists (startup_events drv bld
          ++ [E_write Cerr "GLEW init error: ";
              E_glewGetErrorString (glewInit_ret drv)
                (glewGetErrorString_ret drv (glewInit_ret drv));
              E_write Cerr (glewGetErrorString_ret drv (glewInit_ret drv)
                            ++ newline)])%list.
  unfold startup_events, hint_events. split.
  - destruct (__APPLE__ bld); reflexivity.
  - destruct (__APPLE__ bld); simpl; intuition discriminate.
Qed.

Lemma startup_outcome :
  (glfwInit_ret drv <> 0 /\ glfwCreateWindow_ret drv <> 0 /\
   glewInit_ret drv = GLEW_OK) \/
  (glfwInit_ret drv = 0 \/ glfwCreateWindow_ret drv = 0 \/
   glewInit_ret drv <> GLEW_OK).
Proof.
  destruct (Z.eq_dec (glfwInit_ret drv) 0),
    (Z.eq_dec (glfwCreateWindow_ret drv) 0),
    (Z.eq_dec (glewInit_ret drv) GLEW_OK); tauto.
Qed.

End Returns.

Lemma no_terminate_in_resources drv b :
  ~ In E_glfwTerminate (resource_events drv b).
Proof.
  unfold resource_events, compile_events, info_log_events.
  rewrite !in_app_iff.
  repeat match goal with
         | |- context [if ?c then _ else _] => destruct c
         end; simpl; intuition discriminate.
Qed.

Lemma in_loop_events window k e :
  In e (loop_events window k) ->
  In e (E_glfwWindowShouldClose window 0 :: frame_events window).
Proof.
  unfold loop_events. induction k as [|k IH]; cbn [repeat List.concat].
  - intros [].
  - rewrite in_app_iff. intros [H|H]; [exact H|exact (IH H)].
Qed.

Lemma in_program_events e t :
  is_diagnostic e = false -> In e t -> In e (program_events t).
Proof.
  intros He Hin. unfold program_events. apply filter_In.
  split; [exact Hin|now rewrite He].
Qed.

(** X1.  A run of [main] that returns, returns [0] or [-1]: [0] only when
    GLFW, the window and GLEW all came up and the window asked to close;
    [-1] only when one of the three did not come up. *)
Theorem main_return_means (drv : Driver) (bld : Build) (fuel : nat)
    (r : Z) (w : World) :
  main drv bld fuel boot = Some (r, w) ->
  (r = 0 /\
   glfwInit_ret drv <> 0 /\ glfwCreateWindow_ret drv <> 0 /\
   glewInit_ret drv = GLEW_OK /\
   exists k, (k < fuel)%nat /\ closes_at drv 0 k) \/
  (r = -1 /\
   (glfwInit_ret drv = 0 \/ glfwCreateWindow_ret drv = 0 \/
    glewInit_ret drv <> GLEW_OK)).
Proof.
  intros Hm. destruct (startup_outcome drv) as [(Hi & Hw & He)|Hfail].
  - left.
    destruct (main_past_startup drv bld (fun _ => True) fuel r w)
      as (Hr & w3 & _ & _ & Hk); auto.
  - right.
    destruct (main_startup_failure drv bld fuel Hfail) as (w0 & Hm0 & _).
    rewrite Hm0 in Hm. inversion Hm. auto.
Qed.

Lemma main_return_means_witness :
  exists w,
    main sample_driver debug_build 3 boot = Some (0, w) /\
    exists k, (k < 3)%nat /\ closes_at sample_driver 0 k.
Proof.
  destruct (main_runs sample_driver debug_build 3 2) as (w & Hm & _);
    [discriminate|discriminate|reflexivity|exact sample_driver_closes|lia|].
  exists w. split; [exact Hm|].
  destruct (main_return_means sample_driver debug_build 3 0 w Hm)
    as [(_ & _ & _ & _ & Hk)|(Hr & _)]; [exact Hk|discriminate Hr].
Defined.

(** X2.  In a run of [main] that returns, every call into OpenGL comes
    after [glfwMakeContextCurrent] on a window that exists and after a
    [glewInit] that answered [GLEW_OK]; a run that returns [-1] makes no
    call into OpenGL at all. *)
Theorem gl_calls_follow_context (drv : Driver) (bld : Build) (fuel : nat)
    (r : Z) (w : World) (pre post : list Event) (e : Event) :
  main drv bld fuel boot = Some (r, w) ->
  trace w = (pre ++ e :: post)%list ->
  is_gl_call e = true ->
  r = 0 /\
  glfwCreateWindow_ret drv <> 0 /\
  In (E_glfwMakeContextCurrent (glfwCreateWindow_ret drv)) pre /\
  In (E_glewInit GLEW_OK) pre.
Proof.
  intros Hm Ht Hgl. destruct (startup_outcome drv) as [(Hi & Hw & He)|Hfail].
  - destruct (main_past_startup drv bld
                (fun v => exists t, trace v = (startup_events drv bld ++ t)%list)
                fuel r w)
      as (Hr & w3 & (t & Ht3) & Hw3 & _); auto.
    + intros e0 v n ti p b _ (t & Hv). exists (t ++ [e0])%list. cbn [trace].
      now rewrite Hv, app_assoc.
    + intros e0 v _ (t & Hv). exists (t ++ [e0])%list. cbn [trace].
      now rewrite Hv, app_assoc.
    + intros _ Function File Line v (t & Hv). rewrite PrintOpenGLErrors_run.
      cbn [snd trace]. eexists. rewrite Hv, <- app_assoc. reflexivity.
    + exists []. rewrite app_nil_r. apply context_up_world.
    + split; [exact Hr|]. split; [exact Hw|].
      subst w. unfold glfwTerminate, foreign in Ht. cbn [snd trace] in Ht.
      rewrite Ht3, <- app_assoc in Ht.
      assert (Hs : Forall (fun e => is_gl_call e = false)
                          (startup_events drv bld)).
      { unfold startup_events, hint_events.
        destruct (__APPLE__ bld); repeat constructor. }
      assert (Hin : In (E_glfwMakeContextCurrent (glfwCreateWindow_ret drv))
                       (startup_events drv bld) /\
                    In (E_glewInit GLEW_OK) (startup_events drv bld)).
      { unfold startup_events. rewrite He.
        split; right; apply in_or_app; right; simpl; auto 10. }
      apply app_eq_app in Ht.
      destruct Ht as (l & [[Hp Hl]|[Hp _]]).
      * destruct l as [|e0 l].
        -- rewrite app_nil_r in Hp. rewrite <- Hp. exact Hin.
        -- exfalso. rewrite Hp in Hs. apply Forall_app in Hs.
           destruct Hs as [_ Hs]. simpl in Hl. inversion Hl; subst.
           inversion Hs; subst. congruence.
      * subst pre. rewrite !in_app_iff. tauto.
  - exfalso.
    destruct (main_startup_failure drv bld fuel Hfail) as (w0 & Hm0 & Hno & _).
    rewrite Hm0 in Hm. inversion Hm; subst.
    rewrite Ht in Hno. apply Forall_app in Hno. destruct Hno as [_ Hno].
    inversion Hno; subst. congruence.
Qed.

Lemma gl_calls_follow_context_witness :
  exists w,
    main sample_driver debug_build 3 boot = Some (0, w) /\
    In (E_glfwMakeContextCurrent 4096) (firstn 8 (trace w)) /\
    In (E_glewInit GLEW_OK) (firstn 8 (trace w)).
Proof.
  destruct (main sample_driver debug_build 3 boot) as [[r w]|] eqn:Hm;
    [|vm_compute in Hm; discriminate Hm].
  assert (Ht : trace w =
               (firstn 8 (trace w)
                ++ E_glGetError GL_INVALID_ENUM :: skipn 9 (trace w))%list).
  { pose proof Hm as Hc. vm_compute in Hc. inversion Hc. reflexivity. }
  destruct (gl_calls_follow_context sample_driver debug_build 3 r w
              _ _ _ Hm Ht eq_refl) as (Hr & _ & H1 & H2).
  subst r. exists w. auto.
Defined.

(** X3.  A run of [main] that returns has called [glfwTerminate] exactly
    when [glfwInit] had succeeded, and then exactly once, as its last
    act. *)
Theorem glfwTerminate_once_and_last (drv : Driver) (bld : Build)
    (fuel : nat) (r : Z) (w : World) :
  main drv bld fuel boot = Some (r, w) ->
  (glfwInit_ret drv = 0 -> ~ In E_glfwTerminate (trace w)) /\
  (glfwInit_ret drv <> 0 ->
   exists t, trace w = (t ++ [E_glfwTerminate])%list /\
             ~ In E_glfwTerminate t).
Proof.
  intros Hm. destruct (startup_outcome drv) as [(Hi & Hw & He)|Hfail].
  - split; [contradiction|]. intros _.
    destruct (main_past_startup drv bld (fun _ => True) fuel r w)
      as (Hr & w3 & _ & Hw3 & k & Hk & Hc); auto.
    exists (trace w3). split; [now subst w|].
    destruct (main_runs drv bld fuel k Hi Hw He Hc Hk) as (w' & Hm' & Ht').
    rewrite Hm in Hm'. inversion Hm'; subst w'. clear Hm'.
    rewrite <- Hw3 in Ht'. unfold glfwTerminate, foreign in Ht'.
    cbn [snd trace] in Ht'.
    rewrite program_events_snoc in Ht' by reflexivity.
    rewrite !app_assoc in Ht'. apply app_inj_tail in Ht'.
    destruct Ht' as [Ht' _]. intros Hin.
    apply (in_program_events E_glfwTerminate _ eq_refl) in Hin.
    rewrite Ht' in Hin.
    rewrite !in_app_iff in Hin.
    destruct Hin as [[[[Hin|Hin]|Hin]|Hin]|Hin].
    + unfold startup_events, hint_events in Hin.
      destruct (__APPLE__ bld); simpl in Hin; intuition discriminate.
    + exact (no_terminate_in_resources _ _ Hin).
    + apply in_loop_events in Hin. simpl in Hin. intuition discriminate.
    + simpl in Hin. intuition discriminate.
    + simpl in Hin. intuition discriminate.
  - destruct (main_startup_failure drv bld fuel Hfail)
      as (w0 & Hm0 & _ & Hcases).
    rewrite Hm0 in Hm. inversion Hm; subst.
    destruct Hcases as [[Hi Hno]|[Hi Hlast]]; split; tauto.
Qed.

Lemma glfwTerminate_once_and_last_witness :
  (exists w,
     main no_glfw_driver debug_build 0 boot = Some (-1, w) /\
     ~ In E_glfwTerminate (trace w)) /\
  (exists w t,
     main sample_driver debug_build 3 boot = Some (0, w) /\
     trace w = (t ++ [E_glfwTerminate])%list /\ ~ In E_glfwTerminate t).
Proof.
  split.
  - exists (mkWorld [E_glfwInit 0] (gl_faults no_glfw_driver 0) 1 0 0).
    split; [reflexivity|].
    apply (proj1 (glfwTerminate_once_and_last no_glfw_driver debug_build
                    0 (-1) _ eq_refl)).
    reflexivity.
  - destruct (main_runs sample_driver debug_build 3 2) as (w & Hm & _);
      [discriminate|discriminate|reflexivity|exact sample_driver_closes|lia|].
    destruct (proj2 (glfwTerminate_once_and_last sample_driver debug_build
                       3 0 w Hm)) as (t & Ht & Hno); [discriminate|].
    exists w, t. auto.
Defined.

(** ** The two builds *)

Section Builds.

Variable drv : Driver.
Variable bld : Build.

Lemma refines_render_loop keep fuel :
  (_DEBUG bld = true ->
   forall e, is_diagnostic e = true -> keep e = false) ->
  forall window pre w w',
    same_run keep pre w w' ->
    match render_loop drv bld fuel window w,
          render_loop drv (release bld) fuel window w' with
    | Some v, Some v' => same_run keep pre v v'
    | None, None => True
    | _, _ => False
    end.
Proof.
  intros Hk. induction fuel as [|fuel IH]; intros window pre w w' H;
    [exact I|].
  cbn [render_loop].
  destruct (refines_glfwWindowShouldClose drv keep window pre w w' H)
    as [Hc H1].
  destruct (glfwWindowShouldClose drv window w) as [close w1],
    (glfwWindowShouldClose drv window w') as [close' w1'].
  cbn [fst snd] in Hc, H1. subst close'.
  destruct (close =? 0); [|exact H1].
  apply IH. apply (refines_render_frame drv bld keep Hk window), H1.
Qed.

Lemma context_up_release :
  context_up drv (release bld) = context_up drv bld.
Proof. reflexivity. Qed.

Lemma main_startup_failure_release fuel :
  glfwInit_ret drv = 0 \/ glfwCreateWindow_ret drv = 0 \/
  glewInit_ret drv <> GLEW_OK ->
  main drv (release bld) fuel boot = main drv bld fuel boot.
Proof.
  intros Hfail. unfold main.
  cbv beta iota zeta delta
    [glfwInit window_hints glfwWindowHint glfwCreateWindow glfwTerminate
     glfwMakeContextCurrent set_glewExperimental glewInit
     glewGetErrorString write emit foreign bind ret boot release __APPLE__
     trace gl_errors tick polls buffers].
  destruct (glfwInit_ret drv =? 0) eqn:Ei; [reflexivity|].
  destruct bld as [d [|] f]; cbv beta iota;
    (destruct (glfwCreateWindow_ret drv =? 0) eqn:Ew; [reflexivity|];
     destruct (GLEW_OK =? glewInit_ret drv) eqn:Ee; [|reflexivity];
     exfalso; apply Z.eqb_neq in Ei, Ew; apply Z.eqb_eq in Ee;
     intuition congruence).
Qed.

End Builds.

(** X4.  Defining [_DEBUG] changes nothing but the diagnostics.  From the
    same answers of the libraries, the two builds of [main] return
    together, with the same exit code, and the release build never calls
    [glGetError].  When they return [0], the trace of the release build
    has no report either, and it is the trace of the other build with the
    fetches and the reports removed.  When they return [-1] the two builds
    have done the same, event for event. *)
Theorem debug_build_adds_diagnostics_only (drv : Driver) (bld : Build)
    (fuel : nat) :
  match main drv bld fuel boot, main drv (release bld) fuel boot with
  | Some (r, w), Some (r', w') =>
      r = r' /\
      (forall c, ~ In (E_glGetError c) (trace w')) /\
      (r = 0 ->
       program_events (trace w) = trace w' /\
       program_events (trace w') = trace w') /\
      (r = -1 -> w = w')
  | None, None => True
  | _, _ => False
  end.
Proof.
  destruct (startup_outcome drv) as [(Hi & Hw & He)|Hfail].
  - rewrite !(main_with_context drv _ fuel Hi Hw He), context_up_release.
    set (w0 := context_up drv bld).
    assert (H0 : same_run (fun e => negb (is_diagnostic e)) [] w0 w0)
      by (repeat split).
    destruct (refines_build_resources drv bld _ (keep_program_events bld)
                [] w0 w0 H0) as [Hh H1].
    rewrite <- Hh.
    pose proof (refines_render_loop drv bld _ fuel (keep_program_events bld)
                  (glfwCreateWindow_ret drv) [] _ _ H1) as H2.
    destruct (render_loop drv bld fuel _ _) as [v|],
      (render_loop drv (release bld) fuel _ _) as [v'|] eqn:Hloop;
      try contradiction; [|exact I].
    split; [reflexivity|].
    destruct (refines_teardown drv bld _ (keep_program_events bld)
                (fst (build_resources drv bld w0)) [] v v' H2) as [_ H3].
    destruct (refines_foreign drv _ E_glfwTerminate [] _ _ H3)
      as [_ (H4 & _)].
    unfold glfwTerminate. unfold program_events. rewrite H4. cbn [app].
    change (filter (fun e => negb (is_diagnostic e)) ?t)
      with (program_events t).
    assert (Hq : program_events (trace v') = trace v').
    { apply (render_loop_keeps drv (release bld)
               (fun v => program_events (trace v) = trace v)) in Hloop;
        [exact Hloop| | |].
      - intros e u n t p b He' Hu. cbn [trace].
        now rewrite program_events_snoc, Hu.
      - discriminate.
      - apply keeps_build_resources.
        + intros e u n t p b He' Hu. cbn [trace].
          now rewrite program_events_snoc, Hu.
        + intros e u He' Hu. cbn [trace].
          now rewrite program_events_snoc, Hu.
        + discriminate.
        + unfold w0. destruct (context_up_world drv bld) as (-> & _).
          apply startup_events_not_diagnostic. }
    assert (Hq3 : keeps (fun v => program_events (trace v) = trace v)
                        (teardown drv (release bld)
                           (fst (build_resources drv bld w0)))).
    { apply keeps_teardown.
      - intros e u n t p b He' Hu. cbn [trace].
        now rewrite program_events_snoc, Hu.
      - discriminate. }
    specialize (Hq3 v' Hq). cbn [snd trace foreign].
    rewrite program_events_snoc by reflexivity. rewrite Hq3.
    split; [|split; [auto|discriminate]].
    intros c Hin.
    assert (Hall : program_events
                     (trace (snd (teardown drv (release bld)
                                    (fst (build_resources drv bld w0)) v'))
                      ++ [E_glfwTerminate]) =
                   (trace (snd (teardown drv (release bld)
                                  (fst (build_resources drv bld w0)) v'))
                    ++ [E_glfwTerminate])%list)
      by (rewrite program_events_snoc by reflexivity; now rewrite Hq3).
    rewrite <- Hall in Hin. unfold program_events in Hin.
    apply filter_In in Hin. destruct Hin as [_ Hin]. discriminate Hin.
  - destruct (main_startup_failure drv bld fuel Hfail)
      as (w & Hm & Hno & _).
    rewrite (main_startup_failure_release drv bld fuel Hfail), Hm.
    split; [reflexivity|]. split; [|split; [discriminate|reflexivity]].
    intros c Hin. rewrite Forall_forall in Hno.
    specialize (Hno _ Hin). discriminate Hno.
Qed.

Lemma debug_build_adds_diagnostics_only_witness :
  (exists w w',
     main sample_driver debug_build 3 boot = Some (0, w) /\
     main sample_driver release_build 3 boot = Some (0, w') /\
     program_events (trace w) = trace w') /\
  (exists w,
     main no_loader_driver debug_build 0 boot = Some (-1, w) /\
     main no_loader_driver release_build 0 boot = Some (-1, w)).
Proof.
  split.
  - destruct (main_runs sample_driver debug_build 3 2) as (w & Hm & _);
      [discriminate|discriminate|reflexivity|exact sample_driver_closes|lia|].
    destruct (main_runs sample_driver release_build 3 2) as (w' & Hm' & _);
      [discriminate|discriminate|reflexivity|exact sample_driver_closes|lia|].
    exists w, w'. split; [exact Hm|]. split; [exact Hm'|].
    pose proof (debug_build_adds_diagnostics_only sample_driver debug_build 3)
      as H.
    change (release debug_build) with release_build in H.
    rewrite Hm, Hm' in H. destruct H as (_ & _ & H0 & _).
    apply H0. reflexivity.
  - destruct (main_without_loader no_loader_driver debug_build 0)
      as (w & Hm & _); [discriminate|discriminate|discriminate|].
    destruct (main_without_loader no_loader_driver release_build 0)
      as (w' & Hm' & _); [discriminate|discriminate|discriminate|].
    exists w. split; [exact Hm|].
    pose proof (debug_build_adds_diagnostics_only no_loader_driver
                  debug_build 0) as H.
    change (release debug_build) with release_build in H.
    rewrite Hm, Hm' in H. destruct H as (_ & _ & _ & H1).
    rewrite Hm'. now rewrite (H1 eq_refl).
Defined.

(** Why the runs that return [-1] are set apart above: the second half
    of the message of line 68 is whatever string GLEW returns, and
    [program_events], which knows a report by its beginning, would take
    such a string for a report. *)
Example loader_message_may_look_like_a_report :
  match main report_like_loader_driver release_build 0 boot with
  | Some (r, w) =>
      r = -1 /\
      In (E_write Cerr ("OpenGL Error in GLEW" ++ newline)) (trace w) /\
      ~ In (E_write Cerr ("OpenGL Error in GLEW" ++ newline))
           (program_events (trace w))
  | None => False
  end.
Proof.
  vm_compute. split; [reflexivity|]. split; [tauto|].
  intuition discriminate.
Qed.

(** ** The checked calls, on a call that records errors *)

Lemma drain_events_of_flags Function File Line q :
  flags_set q ->
  drain_events Function File Line q =
  (reports Function File Line q ++ [E_glGetError GL_NO_ERROR])%list /\
  unfetched q = [].
Proof.
  intros Hq. destruct (fetched_all q Hq) as [Hf Hu].
  unfold drain_events, reports. now rewrite Hf.
Qed.

(** X5.  With [_DEBUG] defined, [CheckedGLCall] attributes errors: those
    recorded before the wrapped call are reported under the label
    [">>BEFORE<< x"], those that the call itself records under the label
    [x], and none is left recorded.  [CheckedGLResult] reports both kinds
    under the label [x]. *)
Theorem checked_call_attributes_errors (drv : Driver) (bld : Build) {A}
    (x : M A) (e : Event) (text : string) (line : Z) (w : World) :
  _DEBUG bld = true ->
  (forall v, tick v = tick w -> polls v = polls w -> buffers v = buffers w ->
     trace (snd (x v)) = (trace v ++ [e])%list /\
     gl_errors (snd (x v)) = (gl_errors v ++ gl_faults drv (tick v))%list) ->
  flags_set (gl_errors w) -> flags_set (gl_faults drv (tick w)) ->
  let file := __FILE__ bld in
  let after := snd (CheckedGLCall bld text line x w) in
  let after' := snd (CheckedGLResult bld text line x w) in
  trace after =
    (trace w
     ++ reports (">>BEFORE<< " ++ text) file line (gl_errors w)
     ++ [E_glGetError GL_NO_ERROR; e]
     ++ reports text file line (gl_faults drv (tick w))
     ++ [E_glGetError GL_NO_ERROR])%list /\
  gl_errors after = [] /\
  trace after' =
    (trace w ++ [e]
     ++ reports text file line (gl_errors w ++ gl_faults drv (tick w))
     ++ [E_glGetError GL_NO_ERROR])%list /\
  gl_errors after' = [].
Proof.
  intros Hd Hx Hq Hf. cbv zeta.
  unfold CheckedGLCall, CheckedGLResult, bind, ret. rewrite Hd.
  rewrite PrintOpenGLErrors_run.
  destruct (drain_events_of_flags (">>BEFORE<< " ++ text) (__FILE__ bld) line
              _ Hq) as [Hb Hu].
  rewrite Hb, Hu.
  match goal with
  | |- context [x ?v] =>
      destruct (Hx v eq_refl eq_refl eq_refl) as [Ht Hg];
      destruct (x v) as [a w2]
  end.
  destruct (Hx w eq_refl eq_refl eq_refl) as [Ht' Hg'].
  destruct (x w) as [a' v2].
  cbn [fst snd trace gl_errors tick] in *.
  rewrite !PrintOpenGLErrors_run. cbn [snd trace gl_errors].
  rewrite Ht, Hg, Ht', Hg'. cbn [app].
  destruct (drain_events_of_flags text (__FILE__ bld) line _ Hf) as [Hc Hv].
  assert (Hall : flags_set (gl_errors w ++ gl_faults drv (tick w)))
    by (apply Forall_app; auto).
  destruct (drain_events_of_flags text (__FILE__ bld) line _ Hall)
    as [Hc' Hv'].
  rewrite Hc, Hv, Hc', Hv'. rewrite <- !app_assoc. cbn [app]. auto.
Qed.

Lemma checked_call_attributes_errors_witness :
  trace (snd (CheckedGLCall debug_build "glGenBuffers(1, &VBO)" 91
                (glGenBuffers sample_driver 1)
                (mkWorld [] [GL_INVALID_VALUE] 6 0 0)))
  = [E_glGetError GL_INVALID_VALUE;
     E_write Cerr
       ("OpenGL Error in main.cpp at line 91 calling >>BEFORE<< glGenBuffers(1, &VBO): GL_INVALID_VALUE (0x501)"
        ++ newline);
     E_glGetError GL_NO_ERROR;
     E_glGenBuffers 1 1;
     E_glGetError GL_INVALID_ENUM;
     E_write Cerr
       ("OpenGL Error in main.cpp at line 91 calling glGenBuffers(1, &VBO): GL_INVALID_ENUM (0x500)"
        ++ newline);
     E_glGetError GL_NO_ERROR].
Proof.
  apply (checked_call_attributes_errors sample_driver debug_build
           (glGenBuffers sample_driver 1) (E_glGenBuffers 1 1)
           "glGenBuffers(1, &VBO)" 91 (mkWorld [] [GL_INVALID_VALUE] 6 0 0)).
  - reflexivity.
  - intros v _ _ Hb. unfold glGenBuffers. cbn [snd trace gl_errors].
    cbn [buffers] in Hb. rewrite Hb. split; reflexivity.
  - repeat constructor. discriminate.
  - repeat constructor. discriminate.
Defined.

(** X6.  With no error recorded, [PrintOpenGLErrors] makes one call of
    [glGetError] and writes nothing.  Run twice in a row, it reports each
    recorded error once, in the first run: the second run finds none. *)
Theorem PrintOpenGLErrors_reports_once (Function File : string) (Line : Z)
    (Function' File' : string) (Line' : Z) (w : World) :
  (gl_errors w = [] ->
   PrintOpenGLErrors Function File Line w =
   (tt, mkWorld (trace w ++ [E_glGetError GL_NO_ERROR]) []
                (tick w) (polls w) (buffers w))) /\
  (flags_set (gl_errors w) ->
   let w1 := snd (PrintOpenGLErrors Function File Line w) in
   let w2 := snd (PrintOpenGLErrors Function' File' Line' w1) in
   trace w1 =
     (trace w ++ reports Function File Line (gl_errors w)
      ++ [E_glGetError GL_NO_ERROR])%list /\
   trace w2 = (trace w1 ++ [E_glGetError GL_NO_ERROR])%list /\
   stream_text Cerr (trace w2) = stream_text Cerr (trace w1) /\
   gl_errors w2 = []).
Proof.
  split.
  - intros Hq. rewrite PrintOpenGLErrors_run, Hq. reflexivity.
  - intros Hq. cbv zeta. rewrite !PrintOpenGLErrors_run.
    cbn [snd trace gl_errors].
    destruct (drain_events_of_flags Function File Line _ Hq) as [Hd Hu].
    rewrite Hd, Hu. repeat split.
    rewrite stream_text_app. cbn [drain_events fetched flat_map app stream_text].
    apply append_nil_r.
Qed.

Lemma PrintOpenGLErrors_reports_once_witness :
  PrintOpenGLErrors "glClear(GL_COLOR_BUFFER_BIT)" "main.cpp" 127 boot
    = (tt, mkWorld [E_glGetError GL_NO_ERROR] [] 0 0 0) /\
  gl_errors
    (snd (PrintOpenGLErrors "glUseProgram(prog)" "main.cpp" 118
       (snd (PrintOpenGLErrors "glLinkProgram(prog)" "main.cpp" 117
               (mkWorld [] [GL_INVALID_VALUE; GL_INVALID_OPERATION] 0 0 0)))))
    = [].
Proof.
  split.
  - apply (proj1 (PrintOpenGLErrors_reports_once
                    "glClear(GL_COLOR_BUFFER_BIT)" "main.cpp" 127
                    "" "" 0 boot)).
    reflexivity.
  - apply (proj2 (PrintOpenGLErrors_reports_once
                    "glLinkProgram(prog)" "main.cpp" 117
                    "glUseProgram(prog)" "main.cpp" 118
                    (mkWorld [] [GL_INVALID_VALUE; GL_INVALID_OPERATION]
                             0 0 0))).
    repeat constructor; discriminate.
Defined.

(** ** What becomes of the recorded errors *)

Section Flags.

Variable drv : Driver.
Variable bld : Build.
Hypothesis drv_records_errors : records_errors_only drv.

Lemma flags_call : forall e w n (t p b : nat),
  is_diagnostic e = false -> flags_set (gl_errors w) ->
  flags_set (gl_errors
               (mkWorld (trace w ++ [e]) (gl_errors w ++ gl_faults drv n)
                        t p b)).
Proof.
  intros e w n t p b _ Hw. cbn [gl_errors]. apply Forall_app. split; auto.
  apply drv_records_errors.
Qed.

Lemma flags_emit : forall e w,
  is_diagnostic e = false -> flags_set (gl_errors w) ->
  flags_set (gl_errors
               (mkWorld (trace w ++ [e]) (gl_errors w) (tick w) (polls w)
                        (buffers w))).
Proof. intros e w _ Hw. exact Hw. Qed.

Lemma flags_drain : _DEBUG bld = true ->
  forall Function File Line w,
    flags_set (gl_errors w) ->
    flags_set (gl_errors (snd (PrintOpenGLErrors Function File Line w))).
Proof.
  intros _ Function File Line w Hw. rewrite PrintOpenGLErrors_run.
  cbn [snd gl_errors].
  destruct (fetched_all _ Hw) as [_ ->]. constructor.
Qed.

Let I := fun v : World => flags_set (gl_errors v).

Lemma CheckedGLCall_leaves_none {A} text line (x : M A) :
  _DEBUG bld = true -> keeps I x ->
  hoare I (CheckedGLCall bld text line x) (fun _ v => gl_errors v = []).
Proof.
  intros Hd Hx w Hw. unfold CheckedGLCall, bind, ret. rewrite Hd.
  pose proof (flags_drain Hd (">>BEFORE<< " ++ text) (__FILE__ bld) line w Hw)
    as H1.
  destruct (PrintOpenGLErrors _ _ _ w) as [u w1]. cbn [snd] in H1.
  specialize (Hx w1 H1). destruct (x w1) as [a w2]. cbn [snd] in Hx.
  rewrite PrintOpenGLErrors_run. cbn [snd gl_errors].
  now destruct (fetched_all _ Hx) as [_ ->].
Qed.

Ltac flags_step :=
  first
    [ apply (keeps_bind I); [|intro]
    | apply (keeps_CheckedGLCall bld I flags_drain)
    | apply (keeps_CheckedGLResult bld I flags_drain)
    | apply (keeps_if I)
    | apply (keeps_ret I)
    | apply (keeps_emit I flags_emit); reflexivity
    | apply (keeps_foreign drv I flags_call); reflexivity
    | apply (keeps_glGenBuffers drv I flags_call)
    | apply (keeps_PrintShaderInfoLog drv I flags_call flags_emit) ].

Ltac flags_last Hd :=
  solve
    [ apply (hoare_bind I (fun _ v => gl_errors v = []));
      [ apply (CheckedGLCall_leaves_none _ _ _ Hd); repeat flags_step
      | intros ? ? Hv; exact Hv ]
    | apply (CheckedGLCall_leaves_none _ _ _ Hd); repeat flags_step ].

Lemma build_resources_leaves_none :
  _DEBUG bld = true ->
  hoare I (build_resources drv bld) (fun _ v => gl_errors v = []).
Proof.
  intros Hd.
  unfold build_resources, glGenVertexArrays, glBindVertexArray, glBindBuffer,
    glBufferData, glCreateShader, glShaderSource, glCompileShader,
    glGetShaderiv, glCreateProgram, glAttachShader, glBindFragDataLocation,
    glLinkProgram, glUseProgram, glGetAttribLocation,
    glEnableVertexAttribArray, glVertexAttribPointer, write.
  repeat first
    [ flags_last Hd
    | apply (hoare_bind I (fun _ => I)); [repeat flags_step|intro] ].
Qed.

Lemma teardown_leaves_none h :
  _DEBUG bld = true ->
  hoare I (teardown drv bld h) (fun _ v => gl_errors v = []).
Proof.
  intros Hd.
  unfold teardown, glDeleteProgram, glDeleteShader, glDeleteBuffers,
    glDeleteVertexArrays.
  repeat first
    [ flags_last Hd
    | apply (hoare_bind I (fun _ => I)); [repeat flags_step|intro] ].
Qed.

End Flags.

(** X7.  Let the libraries record error codes only.  With [_DEBUG]
    defined, no error is left recorded once the resources are built, and
    none once they are torn down: each one has been fetched and reported.
    Without [_DEBUG] no error is ever fetched: whatever was recorded
    before a phase is still recorded after it, in the same order. *)
Theorem recorded_errors_are_reported_or_kept (drv : Driver) (bld : Build)
    (h : Handles) (w : World) :
  (_DEBUG bld = true -> records_errors_only drv ->
   flags_set (gl_errors w) ->
   gl_errors (snd (build_resources drv bld w)) = [] /\
   gl_errors (snd (teardown drv bld h w)) = []) /\
  (_DEBUG bld = false ->
   (exists q, gl_errors (snd (build_resources drv bld w))
              = (gl_errors w ++ q)%list) /\
   (forall window,
      exists q, gl_errors (snd (render_frame drv bld window w))
                = (gl_errors w ++ q)%list) /\
   (exists q, gl_errors (snd (teardown drv bld h w))
              = (gl_errors w ++ q)%list)).
Proof.
  split.
  - intros Hd Hdrv Hw. split.
    + exact (build_resources_leaves_none drv bld Hdrv Hd w Hw).
    + exact (teardown_leaves_none drv bld Hdrv h Hd w Hw).
  - intros Hd.
    set (J := fun v : World => exists q, gl_errors v = (gl_errors w ++ q)%list).
    assert (Jcall : forall e v n (t p b : nat),
              is_diagnostic e = false -> J v ->
              J (mkWorld (trace v ++ [e]) (gl_errors v ++ gl_faults drv n)
                         t p b)).
    { intros e v n t p b _ (q & Hq). exists (q ++ gl_faults drv n)%list.
      cbn [gl_errors]. now rewrite Hq, app_assoc. }
    assert (Jemit : forall e v,
              is_diagnostic e = false -> J v ->
              J (mkWorld (trace v ++ [e]) (gl_errors v) (tick v) (polls v)
                         (buffers v))).
    { intros e v _ Hv. exact Hv. }
    assert (Jdrain : _DEBUG bld = true ->
              forall Function File Line v,
                J v -> J (snd (PrintOpenGLErrors Function File Line v)))
      by congruence.
    assert (J0 : J w) by (exists []; now rewrite app_nil_r).
    split; [|split].
    + exact (keeps_build_resources drv bld J Jcall Jemit Jdrain w J0).
    + intros window.
      exact (keeps_render_frame drv bld J Jcall Jdrain window w J0).
    + exact (keeps_teardown drv bld J Jcall Jdrain h w J0).
Qed.

Lemma sample_driver_records_errors : records_errors_only sample_driver.
Proof.
  intros n. unfold sample_driver, gl_faults, flags_set.
  destruct (n =? 6)%nat; repeat constructor. discriminate.
Defined.

Lemma recorded_errors_are_reported_or_kept_witness :
  (gl_errors (snd (build_resources sample_driver debug_build
                     (mkWorld [] [GL_OUT_OF_MEMORY] 6 0 0))) = [] /\
   gl_errors (snd (teardown sample_driver debug_build
                     (resource_handles sample_driver 0)
                     (mkWorld [] [GL_OUT_OF_MEMORY] 6 0 0))) = []) /\
  (exists q, gl_errors (snd (build_resources sample_driver release_build
                               (mkWorld [] [GL_OUT_OF_MEMORY] 6 0 0)))
             = (GL_OUT_OF_MEMORY :: q)%list).
Proof.
  split.
  - apply (proj1 (recorded_errors_are_reported_or_kept sample_driver
                    debug_build (resource_handles sample_driver 0)
                    (mkWorld [] [GL_OUT_OF_MEMORY] 6 0 0)));
      [reflexivity|exact sample_driver_records_errors|].
    repeat constructor. discriminate.
  - apply (proj2 (recorded_errors_are_reported_or_kept sample_driver
                    release_build (resource_handles sample_driver 0)
                    (mkWorld [] [GL_OUT_OF_MEMORY] 6 0 0))).
    reflexivity.
Defined.

(** ** The shader log and the handles *)

Lemma length_substring s : forall m,
  String.length (substring 0 m s) = Nat.min m (String.length s).
Proof.
  induction s as [|a s IH]; intros [|m]; simpl; try reflexivity.
  now rewrite IH.
Qed.

Lemma to_GLuint_to_GLint h : 0 <= h < 2 ^ 32 -> to_GLuint (to_GLint h) = h.
Proof.
  intros Hh. unfold to_GLuint, to_GLint.
  rewrite Zminus_mod_idemp_l.
  replace (h + 2 ^ 31 - 2 ^ 31) with h by lia.
  now apply Z.mod_small.
Qed.

Lemma to_GLuint_of_GLint z :
  - 2 ^ 31 <= z < 2 ^ 31 ->
  to_GLuint z = if z <? 0 then z + 2 ^ 32 else z.
Proof.
  intros Hz. unfold to_GLuint. destruct (z <? 0) eqn:E.
  - apply Z.ltb_lt in E. rewrite <- (Z.mod_add z 1 (2 ^ 32)) by lia.
    apply Z.mod_small. lia.
  - apply Z.ltb_ge in E. apply Z.mod_small. lia.
Qed.

(** X8.  When [PrintShaderInfoLog] writes a log, what it writes to
    [std::cout] after the heading has exactly as many characters as the
    queried length: the driver's log cut to that length less one, then NUL
    characters, at least one, which reach the stream with the text.
    Nothing is written to [std::cerr]. *)
Theorem PrintShaderInfoLog_writes_the_whole_buffer (drv : Driver)
    (Shader : Z) (w : World) :
  let sh := to_GLuint Shader in
  let len := match glGetShaderiv_out drv sh GL_INFO_LOG_LENGTH with
             | Some v => v
             | None => 0
             end in
  let text := glGetShaderInfoLog_out drv sh in
  let w' := snd (PrintShaderInfoLog drv Shader w) in
  stream_text Cerr (trace w') = stream_text Cerr (trace w) /\
  (1 < len ->
   exists pad,
     let kept := Nat.min (Z.to_nat len - 1) (String.length text) in
     let log := substring 0 kept text ++ nuls (S pad) in
     stream_text Cout (trace w') =
       stream_text Cout (trace w)
       ++ ("Shader Info Log:" ++ newline ++ log ++ newline) /\
     String.length log = Z.to_nat len).
Proof.
  cbv zeta. rewrite PrintShaderInfoLog_trace, !stream_text_app.
  unfold info_log_events.
  set (len := match glGetShaderiv_out drv _ _ with Some v => v | None => 0 end).
  set (text := glGetShaderInfoLog_out drv _).
  split.
  - destruct (len >? 1); apply append_nil_r.
  - intros Hl. rewrite info_log_text by exact Hl.
    pose proof (length_substring text (Z.to_nat len - 1)) as Hc.
    set (copied := substring 0 (Z.to_nat len - 1) text) in *.
    exists (Z.to_nat len - String.length copied - 1)%nat.
    assert (Hk : substring 0 (Nat.min (Z.to_nat len - 1) (String.length text))
                   text = copied).
    { unfold copied. clear. generalize (Z.to_nat len - 1)%nat.
      induction text as [|a s IH]; intros [|m]; simpl; try reflexivity.
      now rewrite IH. }
    rewrite Hk.
    replace (S (Z.to_nat len - String.length copied - 1))
      with (Z.to_nat len - String.length copied)%nat by lia.
    split.
    + apply Z.gtb_lt in Hl. rewrite Hl. cbn [stream_text].
      now rewrite append_nil_r.
    + rewrite length_append, length_nuls. lia.
Qed.

Lemma PrintShaderInfoLog_writes_the_whole_buffer_witness :
  exists pad,
    stream_text Cout (trace (snd (PrintShaderInfoLog bad_shader_driver 1 boot)))
    = "Shader Info Log:" ++ newline ++ ("error" ++ nuls (S pad)) ++ newline /\
    String.length ("error" ++ nuls (S pad)) = 6%nat.
Proof.
  destruct (proj2 (PrintShaderInfoLog_writes_the_whole_buffer
                     bad_shader_driver 1 boot)) as (pad & Ht & Hl);
    [reflexivity|].
  exists pad. split; [exact Ht|exact Hl].
Defined.

(** X9.  [PrintShaderInfoLog] takes its shader as a [GLint] although
    handles are [GLuint]s.  Nothing is lost: for every 32-bit handle, the
    high ones included, both of its queries are made on the handle that
    the caller held. *)
Theorem PrintShaderInfoLog_queries_its_shader (drv : Driver) (h : Z)
    (w : World) :
  0 <= h < 2 ^ 32 ->
  exists rest,
    trace (snd (PrintShaderInfoLog drv (to_GLint h) w)) =
      (trace w
       ++ E_glGetShaderiv h GL_INFO_LOG_LENGTH
            (glGetShaderiv_out drv h GL_INFO_LOG_LENGTH) :: rest)%list /\
    (forall s n out, In (E_glGetShaderInfoLog s n out) rest -> s = h) /\
    (forall s p out, In (E_glGetShaderiv s p out) rest -> s = h).
Proof.
  intros Hh. rewrite PrintShaderInfoLog_trace. unfold info_log_events.
  rewrite (to_GLuint_to_GLint h Hh).
  eexists. split; [reflexivity|].
  destruct (_ >? 1); split; intros s n out Hin; simpl in Hin;
    intuition (try discriminate; congruence).
Qed.

Lemma PrintShaderInfoLog_queries_its_shader_witness :
  to_GLint 4294967295 = -1 /\
  exists rest,
    trace (snd (PrintShaderInfoLog bad_shader_driver (to_GLint 4294967295)
                  boot)) =
      E_glGetShaderiv 4294967295 GL_INFO_LOG_LENGTH (Some 1) :: rest.
Proof.
  split; [reflexivity|].
  destruct (PrintShaderInfoLog_queries_its_shader bad_shader_driver
              4294967295 boot) as (rest & Ht & _); [lia|].
  exists rest. exact Ht.
Defined.

(** X10.  The location of the attribute [position] is used unchecked.
    Whatever [GLint] the lookup returns, [main] passes it on as an
    unsigned index, so that the [-1] of a failed lookup becomes
    [4294967295], and describes the layout of that index. *)
Theorem attribute_location_is_used_unchecked (drv : Driver) (bld : Build)
    (w : World) :
  let program := glCreateProgram_ret drv in
  let posLoc := glGetAttribLocation_ret drv program "position" in
  let index := if posLoc <? 0 then posLoc + 2 ^ 32 else posLoc in
  - 2 ^ 31 <= posLoc < 2 ^ 31 ->
  exists added,
    program_events (trace (snd (build_resources drv bld w))) =
      (program_events (trace w) ++ added)%list /\
    occurs_in
      [E_glGetAttribLocation program "position" posLoc;
       E_glEnableVertexAttribArray index;
       E_glBindBuffer GL_ARRAY_BUFFER (glGenBuffers_out drv (buffers w));
       E_glVertexAttribPointer index 2 GL_FLOAT GL_FALSE 0 0;
       E_glBindBuffer GL_ARRAY_BUFFER 0] added.
Proof.
  cbv zeta. intros Hp. exists (resource_events drv (buffers w)).
  split; [apply build_resources_events|].
  unfold resource_events, link_events, resource_handles. cbn [prog vs fs VBO].
  rewrite (to_GLuint_of_GLint _ Hp).
  eexists. exists []. rewrite app_nil_r, !app_assoc.
  change [?a; ?b; ?c; ?d; ?e; ?f; ?g; ?h; ?i; ?j; ?k]
    with ([a; b; c; d; e; f] ++ [g; h; i; j; k])%list.
  rewrite app_assoc. reflexivity.
Qed.

Lemma attribute_location_is_used_unchecked_witness :
  exists added,
    program_events (trace (snd (build_resources bad_shader_driver
                                   release_build boot))) = added /\
    occurs_in
      [E_glGetAttribLocation 3 "position" (-1);
       E_glEnableVertexAttribArray 4294967295;
       E_glBindBuffer GL_ARRAY_BUFFER 1;
       E_glVertexAttribPointer 4294967295 2 GL_FLOAT GL_FALSE 0 0;
       E_glBindBuffer GL_ARRAY_BUFFER 0] added.
Proof.
  destruct (attribute_location_is_used_unchecked bad_shader_driver
              release_build boot) as (added & Ht & Ho).
  - split; [discriminate|reflexivity].
  - exists added. split; [exact Ht|exact Ho].
Defined.

(** X11.  The two compile checks share the variable [compiled].  When the
    status query of the fragment shader stores nothing, the check reads
    what the vertex shader left there: ["Fragment shader failed"] is then
    written exactly when the vertex shader's query stored [0] or nothing. *)
Theorem fragment_check_reads_vertex_status (drv : Driver) (bld : Build)
    (w : World) :
  let status := fun type =>
    glGetShaderiv_out drv (glCreateShader_ret drv type) GL_COMPILE_STATUS in
  status GL_FRAGMENT_SHADER = None ->
  exists added,
    program_events (trace (snd (build_resources drv bld w))) =
      (program_events (trace w) ++ added)%list /\
    (In (E_write Cerr ("Fragment shader failed" ++ newline)) added <->
     status GL_VERTEX_SHADER = Some 0 \/ status GL_VERTEX_SHADER = None).
Proof.
  cbv zeta. intros Hf. exists (resource_events drv (buffers w)).
  split; [apply build_resources_events|].
  assert (Hc : compiled_after drv GL_FRAGMENT_SHADER
                 (compiled_after drv GL_VERTEX_SHADER 0) = 0 <->
               glGetShaderiv_out drv (glCreateShader_ret drv GL_VERTEX_SHADER)
                 GL_COMPILE_STATUS = Some 0 \/
               glGetShaderiv_out drv (glCreateShader_ret drv GL_VERTEX_SHADER)
                 GL_COMPILE_STATUS = None).
  { unfold compiled_after. rewrite Hf.
    destruct (glGetShaderiv_out drv _ GL_COMPILE_STATUS) as [v|].
    - split; [intros ->; auto|intros [H|H]; [now inversion H|discriminate]].
    - split; auto. }
  split.
  - intros Hin. apply failure_message_origin in Hin.
    destruct Hin as [[H _]|[_ H]]; [discriminate H|now apply Hc].
  - intros Hs. apply Hc in Hs.
    unfold resource_events, compile_events at 2. rewrite Hs.
    rewrite !in_app_iff. cbn [Z.eqb]. right. right. left. right.
    simpl. auto.
Qed.

Lemma fragment_check_reads_vertex_status_witness :
  exists added,
    program_events (trace (snd (build_resources mute_fragment_driver
                                   release_build boot))) = added /\
    In (E_write Cerr ("Fragment shader failed" ++ newline)) added.
Proof.
  destruct (fragment_check_reads_vertex_status mute_fragment_driver
              release_build boot eq_refl) as (added & Ht & Hiff).
  exists added. split; [exact Ht|]. apply Hiff. left. reflexivity.
Defined.

(** X12.  The name that [GlErrorToString] gives to a standard error code
    belongs to that code alone, and ["Unknown GL error"] is the name of
    exactly the other values: a report names its error without loss. *)
Theorem GlErrorToString_names_one_code (e e' : Z) :
  (In e standard_codes -> GlErrorToString e' = GlErrorToString e -> e' = e) /\
  (GlErrorToString e = "Unknown GL error" <-> ~ In e standard_codes).
Proof.
  assert (Hcase : forall z,
            (In z standard_codes /\
             GlErrorToString z <> "Unknown GL error" /\
             forall z', In z' standard_codes ->
                        GlErrorToString z' = GlErrorToString z -> z' = z) \/
            (~ In z standard_codes /\
             GlErrorToString z = "Unknown GL error")).
  { intros z. unfold GlErrorToString, standard_codes.
    destruct (z =? GL_NO_ERROR) eqn:E0;
      [|destruct (z =? GL_INVALID_ENUM) eqn:E1;
        [|destruct (z =? GL_INVALID_VALUE) eqn:E2;
          [|destruct (z =? GL_INVALID_OPERATION) eqn:E3;
            [|destruct (z =? GL_INVALID_FRAMEBUFFER_OPERATION) eqn:E4;
              [|destruct (z =? GL_OUT_OF_MEMORY) eqn:E5]]]]];
      rewrite ?Z.eqb_eq, ?Z.eqb_neq in *.
    1-6: left; subst z; split; [simpl; tauto|];
      (split; [discriminate|]);
      intros z' Hin Hz; simpl in Hin;
      destruct Hin as [<-|[<-|[<-|[<-|[<-|[<-|[]]]]]]];
      solve [reflexivity|discriminate Hz].
    right. split; [|reflexivity]. simpl. intuition congruence. }
  split.
  - intros Hin Heq.
    destruct (Hcase e) as [(_ & Hne & _)|(Hno & _)]; [|contradiction].
    destruct (Hcase e') as [(Hin' & _ & _)|(_ & Hu)].
    + destruct (Hcase e) as [(_ & _ & Hinj)|(Hno & _)]; [|contradiction].
      now apply Hinj.
    + congruence.
  - destruct (Hcase e) as [(Hin & Hne & _)|(Hno & Hu)]; split; intros H;
      congruence || tauto.
Qed.

Lemma GlErrorToString_names_one_code_witness :
  GlErrorToString 0x0503 = "Unknown GL error".
Proof.
  apply (proj2 (GlErrorToString_names_one_code 0x0503 0)).
  simpl. intuition discriminate.
Defined.
